(** * SYNAPSE leaderboard service: a shallow embedding of [app.py]

    The Flask application keeps five SQLite tables and a signed session
    cookie.  Every route handler is embedded as a function that takes the
    session and the database and returns the response together with the new
    session and the new database.  SQL statements are embedded as list
    functions over the rows of the table they touch. *)

From Stdlib Require Import ZArith List String Ascii Bool Lia.
From Stdlib Require Import Permutation Sorted DecimalString.
Import ListNotations.

Local Open Scope string_scope.
Local Open Scope list_scope.
Local Open Scope Z_scope.

Notation "s1 +++ s2" := (String.append s1 s2)
  (at level 60, right associativity) : string_scope.

(** ** Scoring *)

(** [calculate_points] of app.py, on Python's unbounded integers. *)
Definition calculate_points (sessions assessments bonus : Z) : Z :=
  (sessions * 10) + (assessments * 20) + bonus.


(** ** Values that cross the Python boundary *)

(** A key of the JSON request body: missing, JSON [null], or a value.  Bodies
    are modelled at the types the schema gives their fields (integers for
    ids and counters, strings for names and credentials).  Integers are
    Python's unbounded integers; what SQLite does with an integer that does
    not fit its signed 64-bit INTEGER is modelled below. *)
Inductive field (A : Type) : Type :=
| Absent
| Null
| Val (a : A).
Arguments Absent {A}.
Arguments Null {A}.
Arguments Val {A} a.

(** [data.get(key)]: [None] when the key is missing or holds [null]. *)
Definition get {A : Type} (f : field A) : option A :=
  match f with
  | Absent => None
  | Null => None
  | Val a => Some a
  end.

(** [data.get(key, default)]: the default only when the key is missing. *)
Definition get_default {A : Type} (f : field A) (default : A) : option A :=
  match f with
  | Absent => Some default
  | Null => None
  | Val a => Some a
  end.

(** The values of the [member_id] key that the model covers: a JSON
    integer, a boolean, an array, an object, the empty string and a float
    zero.  Non-empty strings and non-zero floats are left out: SQLite
    compares them with the integer key after a floating-point conversion. *)
Inductive id_value : Type :=
| IdInt (z : Z)
| IdBool (b : bool)
| IdZeroFloat
| IdEmptyString
| IdEmptyArray
| IdEmptyObject
| IdArray
| IdObject.

(** Python's [not x] on the value of [member_id] and on an optional
    string. *)
Definition not_id (x : option id_value) : bool :=
  match x with
  | None => true
  | Some (IdInt z) => z =? 0
  | Some (IdBool b) => negb b
  | Some IdZeroFloat => true
  | Some IdEmptyString => true
  | Some IdEmptyArray => true
  | Some IdEmptyObject => true
  | Some IdArray => false
  | Some IdObject => false
  end.

Definition not_str (x : option string) : bool :=
  match x with
  | None => true
  | Some s => (s =? "")%string
  end.

(** [str(n)] for an integer. *)
Definition str_int (n : Z) : string := NilZero.string_of_int (Z.to_int n).

(** [str(x)] inside an f-string for a value that may be [None]. *)
Definition str_opt (x : option string) : string :=
  match x with
  | None => "None"%string
  | Some s => s
  end.

(** [s.replace(' ', '+')]. *)
Fixpoint replace_space_plus (s : string) : string :=
  match s with
  | EmptyString => EmptyString
  | String c s' =>
      String (if Ascii.eqb c " "%char then "+"%char else c) (replace_space_plus s')
  end.

(** ** Tables *)

Record admin_user := {
  au_id : Z;
  au_username : string;
  au_password_hash : string;
  au_role : string }.

(** [avatar TEXT] is nullable. The [created_at] columns are never read. *)
Record member := {
  m_id : Z;
  m_name : string;
  m_avatar : option string }.

(** A row of [weekly_leaderboard] or [monthly_leaderboard]; [period] is the
    [week_start] respectively the [month_year] column.  The three counters
    are nullable.  The surrogate [id] column of these tables is never read by
    the program and is left out. *)
Record stat_row := {
  member_id : Z;
  sessions_attended : option Z;
  assessments_submitted : option Z;
  bonus_points : option Z;
  period : string }.

Record audit_entry := {
  admin_username : string;
  action : string;
  details : string }.

(** The database file.  [seq_admin_users] and [seq_members] are the rows of
    [sqlite_sequence] that back the two AUTOINCREMENT keys that are read. *)
Record database := {
  admin_users : list admin_user;
  members : list member;
  weekly_leaderboard : list stat_row;
  monthly_leaderboard : list stat_row;
  audit_log : list audit_entry;
  seq_admin_users : Z;
  seq_members : Z }.

Definition empty_db : database :=
  {| admin_users := []; members := []; weekly_leaderboard := [];
     monthly_leaderboard := []; audit_log := [];
     seq_admin_users := 0; seq_members := 0 |}.

Definition set_members (ms : list member) (seq : Z) (db : database) : database :=
  {| admin_users := admin_users db; members := ms;
     weekly_leaderboard := weekly_leaderboard db;
     monthly_leaderboard := monthly_leaderboard db;
     audit_log := audit_log db;
     seq_admin_users := seq_admin_users db; seq_members := seq |}.

Definition set_weekly (ws : list stat_row) (db : database) : database :=
  {| admin_users := admin_users db; members := members db;
     weekly_leaderboard := ws;
     monthly_leaderboard := monthly_leaderboard db;
     audit_log := audit_log db;
     seq_admin_users := seq_admin_users db; seq_members := seq_members db |}.

Definition set_monthly (ms : list stat_row) (db : database) : database :=
  {| admin_users := admin_users db; members := members db;
     weekly_leaderboard := weekly_leaderboard db;
     monthly_leaderboard := ms;
     audit_log := audit_log db;
     seq_admin_users := seq_admin_users db; seq_members := seq_members db |}.

Definition set_audit_log (al : list audit_entry) (db : database) : database :=
  {| admin_users := admin_users db; members := members db;
     weekly_leaderboard := weekly_leaderboard db;
     monthly_leaderboard := monthly_leaderboard db;
     audit_log := al;
     seq_admin_users := seq_admin_users db; seq_members := seq_members db |}.

(** The Flask session: a dictionary that holds the three keys set by
    [login], or nothing. *)
Record session := {
  user_id : option Z;
  username : option string;
  role : option string }.

Definition session_clear : session :=
  {| user_id := None; username := None; role := None |}.

(** ['user_id' in session]. *)
Definition has_user_id (sess : session) : bool :=
  match user_id sess with
  | Some _ => true
  | None => false
  end.

(** The wall clock as the two period keys derived from it:
    [get_week_start()] and [get_month_year()] at the time of the request. *)
Record clock := {
  week_start : string;
  month_year : string }.

Definition get_week_start (now : clock) : string := week_start now.
Definition get_month_year (now : clock) : string := month_year now.

(** ** Responses *)

(** One dictionary of a leaderboard listing: the six selected columns and
    the [totalPoints] key added by the handler. *)
Record entry := {
  entry_id : Z;
  entry_name : string;
  entry_avatar : option string;
  sessionsAttended : Z;
  assessmentsSubmitted : Z;
  bonusPoints : Z;
  totalPoints : Z }.

Inductive payload : Type :=
| PError (error : string) (code : option string)
| PUser (name : string) (user_role : string)
| PMessage (message : string)
| PStatus (authenticated : bool) (user : option (option string * option string))
| PLeaderboard (type : string) (key : string) (data : list entry)
| PMember (id : Z) (name : string) (avatar : option string)
| PInternalServerError.

Record response := {
  success : bool;
  body : payload;
  status : Z }.

Definition jsonify_error (msg : string) (code : option string) (st : Z) : response :=
  {| success := false; body := PError msg code; status := st |}.

Definition jsonify_ok (p : payload) : response :=
  {| success := true; body := p; status := 200 |}.

(** An exception that no handler catches: Flask answers 500 with its error
    page.  There is no JSON envelope; [success] is false in the record. *)
Definition internal_server_error : response :=
  {| success := false; body := PInternalServerError; status := 500 |}.

Definition handler : Type := session -> database -> response * session * database.

(** ** SQLite integers *)

Definition int64_min : Z := - 2 ^ 63.
Definition int64_max : Z := 2 ^ 63 - 1.

Definition in_int64 (z : Z) : bool := (int64_min <=? z) && (z <=? int64_max).

(** Binding a Python value to a statement parameter: [None] is bound as
    NULL, an integer only when it fits 64 bits; otherwise [sqlite3] raises
    OverflowError before the statement runs. *)
Definition bindable (x : option Z) : bool :=
  match x with
  | None => true
  | Some z => in_int64 z
  end.

(** What binding the value of [member_id] to [WHERE id = ?] gives: an
    error raised by [sqlite3] (an integer outside 64 bits, a list or a
    dict), a value that equals no integer key (NULL, the empty string), or
    the integer key it is compared with ([True] is the integer 1). *)
Inductive bind_result : Type :=
| BindError
| NoKey
| Key (key : Z).

Definition bind_id (x : option id_value) : bind_result :=
  match x with
  | None => NoKey
  | Some (IdInt z) => if in_int64 z then Key z else BindError
  | Some (IdBool b) => Key (if b then 1 else 0)
  | Some IdZeroFloat => Key 0
  | Some IdEmptyString => NoKey
  | Some IdEmptyArray => BindError
  | Some IdEmptyObject => BindError
  | Some IdArray => BindError
  | Some IdObject => BindError
  end.

(** The nearest double of an integer, ties to even (for magnitudes below
    2^1024): the conversion that SQLite applies when integer arithmetic
    overflows. *)
Definition round_double (z : Z) : Z :=
  let a := Z.abs z in
  if a <? 2 ^ 53 then z
  else
    let e := Z.log2 a - 52 in
    let m := Z.shiftr a e in
    let rest := a - Z.shiftl m e in
    let half := 2 ^ (e - 1) in
    let m' := if (half <? rest) || ((rest =? half) && Z.odd m) then m + 1 else m in
    Z.sgn z * Z.shiftl m' e.

(** A numeric value of SQLite: a 64-bit integer or a double.  The doubles
    that arise below are rounded integers, and are given by that integer. *)
Inductive sql_number : Type :=
| SqlInt (i : Z)
| SqlReal (r : Z).

(** The operand of a floating-point operation. *)
Definition sql_real (x : sql_number) : Z :=
  match x with
  | SqlInt i => round_double i
  | SqlReal r => r
  end.

(** [x * y] and [x + y]: in 64-bit integers when both operands are integers
    and the result fits, in doubles otherwise. *)
Definition sql_mul (x y : sql_number) : sql_number :=
  match x, y with
  | SqlInt a, SqlInt b =>
      if in_int64 (a * b) then SqlInt (a * b)
      else SqlReal (round_double (sql_real x * sql_real y))
  | _, _ => SqlReal (round_double (sql_real x * sql_real y))
  end.

Definition sql_add (x y : sql_number) : sql_number :=
  match x, y with
  | SqlInt a, SqlInt b =>
      if in_int64 (a + b) then SqlInt (a + b)
      else SqlReal (round_double (sql_real x + sql_real y))
  | _, _ => SqlReal (round_double (sql_real x + sql_real y))
  end.

(** The number that ORDER BY compares: integers and doubles are compared
    by their exact values. *)
Definition sql_value (x : sql_number) : Z :=
  match x with
  | SqlInt i => i
  | SqlReal r => r
  end.

(** ** SQL statements *)

(** The next key of an AUTOINCREMENT column: one more than the largest key
    ever used. *)
Definition max_rowid {A : Type} (rowid : A -> Z) (rows : list A) : Z :=
  fold_right (fun r acc => Z.max (rowid r) acc) 0 rows.

Definition autoincrement {A : Type} (rowid : A -> Z) (rows : list A) (seq : Z) : Z :=
  Z.max seq (max_rowid rowid rows) + 1.

(** [SELECT name FROM members WHERE id = ?] followed by [fetchone()]. *)
Definition select_member_name (mid : Z) (ms : list member) : option string :=
  match filter (fun m => m_id m =? mid) ms with
  | [] => None
  | m :: _ => Some (m_name m)
  end.

(** [INSERT INTO members (name, avatar) VALUES (?, ?)]: [None] stands for the
    [sqlite3.IntegrityError] raised by the UNIQUE constraint on [name];
    otherwise the new table, the new sequence value, and [lastrowid]. *)
Definition insert_member (name : string) (avatar : option string) (db : database)
  : option (database * Z) :=
  if existsb (fun m => (m_name m =? name)%string) (members db) then None
  else
    let rowid := autoincrement m_id (members db) (seq_members db) in
    Some (set_members (members db ++ [{| m_id := rowid; m_name := name; m_avatar := avatar |}])
                      rowid db, rowid).

Definition same_key (mid : Z) (p : string) (r : stat_row) : bool :=
  (member_id r =? mid) && (period r =? p)%string.

(** [INSERT ... ON CONFLICT(member_id, period) DO UPDATE SET] the three
    counters to the excluded values. *)
Fixpoint upsert_stat (mid : Z) (s a b : option Z) (p : string) (rows : list stat_row)
  : list stat_row :=
  match rows with
  | [] => [{| member_id := mid; sessions_attended := s; assessments_submitted := a;
              bonus_points := b; period := p |}]
  | r :: rows' =>
      if same_key mid p r
      then {| member_id := member_id r; sessions_attended := s;
              assessments_submitted := a; bonus_points := b;
              period := period r |} :: rows'
      else r :: upsert_stat mid s a b p rows'
  end.

(** [DELETE FROM <stat table> WHERE member_id = ?]. *)
Definition delete_stats_of (mid : Z) (rows : list stat_row) : list stat_row :=
  filter (fun r => negb (member_id r =? mid)) rows.

(** [DELETE FROM <stat table> WHERE member_id = ? AND <period> = ?]. *)
Definition delete_stat (mid : Z) (p : string) (rows : list stat_row) : list stat_row :=
  filter (fun r => negb (same_key mid p r)) rows.

(** [DELETE FROM members WHERE id = ?]. *)
Definition delete_member_row (mid : Z) (ms : list member) : list member :=
  filter (fun m => negb (m_id m =? mid)) ms.

(** [FROM members m LEFT JOIN <stat table> w ON m.id = w.member_id AND
    w.<period> = ?]: every member, once per matching stat row, or once with
    no stat row. *)
Definition left_join (ms : list member) (rows : list stat_row) (p : string)
  : list (member * option stat_row) :=
  flat_map (fun m =>
              match filter (same_key (m_id m) p) rows with
              | [] => [(m, None)]
              | matching => map (fun w => (m, Some w)) matching
              end) ms.

Definition COALESCE (x : option Z) (default : Z) : Z :=
  match x with
  | Some v => v
  | None => default
  end.

Definition column (col : stat_row -> option Z) (w : option stat_row) : option Z :=
  match w with
  | Some r => col r
  | None => None
  end.

(** The ORDER BY expression of the two leaderboard queries, evaluated by
    SQLite. *)
Definition order_key (jr : member * option stat_row) : Z :=
  sql_value
    (sql_add
       (sql_add
          (sql_mul (SqlInt (COALESCE (column sessions_attended (snd jr)) 0)) (SqlInt 10))
          (sql_mul (SqlInt (COALESCE (column assessments_submitted (snd jr)) 0))
                   (SqlInt 20)))
       (SqlInt (COALESCE (column bonus_points (snd jr)) 0))).

(** [ORDER BY key DESC] as a stable sort of the joined rows: rows with equal
    keys keep the order in which the join produced them. *)
Fixpoint insert_desc {A : Type} (key : A -> Z) (x : A) (sorted : list A) : list A :=
  match sorted with
  | [] => [x]
  | y :: rest =>
      if key y <=? key x then x :: y :: rest
      else y :: insert_desc key x rest
  end.

Definition order_by_desc {A : Type} (key : A -> Z) (rows : list A) : list A :=
  fold_right (insert_desc key) [] rows.

(** The six selected columns of one joined row, as the dictionary built by
    [dict(row)], extended with [totalPoints] by the handler's loop. *)
Definition with_total_points (jr : member * option stat_row) : entry :=
  let sessionsAttended := COALESCE (column sessions_attended (snd jr)) 0 in
  let assessmentsSubmitted := COALESCE (column assessments_submitted (snd jr)) 0 in
  let bonusPoints := COALESCE (column bonus_points (snd jr)) 0 in
  {| entry_id := m_id (fst jr);
     entry_name := m_name (fst jr);
     entry_avatar := m_avatar (fst jr);
     sessionsAttended := sessionsAttended;
     assessmentsSubmitted := assessmentsSubmitted;
     bonusPoints := bonusPoints;
     totalPoints := calculate_points sessionsAttended assessmentsSubmitted bonusPoints |}.

(** The rows of a leaderboard query followed by the handler's loop. *)
Definition leaderboard_data (ms : list member) (rows : list stat_row) (p : string)
  : list entry :=
  map with_total_points (order_by_desc order_key (left_join ms rows p)).

(** ** The application *)

Section App.

(** [hashlib.sha256(password.encode()).hexdigest()]: the digest function of
    the Python standard library, taken as a parameter. *)
Variable hash_password : string -> string.

Local Open Scope string_scope.

(** [init_db]: the tables exist after the CREATE TABLE IF NOT EXISTS
    statements; the default administrator is inserted unless a row named
    [admin] is present. *)
Definition init_db (db : database) : database :=
  match filter (fun u => au_username u =? "admin") (admin_users db) with
  | [] =>
      let default_password := hash_password "synapse2024" in
      let rowid := autoincrement au_id (admin_users db) (seq_admin_users db) in
      {| admin_users := admin_users db ++
           [{| au_id := rowid; au_username := "admin";
               au_password_hash := default_password; au_role := "admin" |}];
         members := members db;
         weekly_leaderboard := weekly_leaderboard db;
         monthly_leaderboard := monthly_leaderboard db;
         audit_log := audit_log db;
         seq_admin_users := rowid;
         seq_members := seq_members db |}
  | _ :: _ => db
  end.

(** [log_action]: one row appended to [audit_log], in a transaction of its
    own. *)
Definition log_action (sess : session) (act det : string) (db : database) : database :=
  let user :=
    match username sess with
    | Some u => u
    | None => "system"
    end in
  set_audit_log
    (audit_log db ++ [{| admin_username := user; action := act; details := det |}]) db.

Definition auth_required : response :=
  {| success := false;
     body := PError "Authentication required" (Some "AUTH_REQUIRED");
     status := 401 |}.

(** The [require_auth] decorator. *)
Definition require_auth (f : handler) : handler :=
  fun sess db =>
    if negb (has_user_id sess) then (auth_required, sess, db)
    else f sess db.

(** POST /api/auth/login *)
Definition login (data_username data_password : field string) : handler :=
  fun sess db =>
    let usr := get data_username in
    let password := get data_password in
    if not_str usr || not_str password
    then (jsonify_error "Username and password required" None 400, sess, db)
    else
      let password_hash := hash_password (str_opt password) in
      match filter (fun u => (au_username u =? str_opt usr)
                             && (au_password_hash u =? password_hash))
                   (admin_users db) with
      | user :: _ =>
          let sess' := {| user_id := Some (au_id user);
                          username := Some (au_username user);
                          role := Some (au_role user) |} in
          let db' := log_action sess' "LOGIN"
                       ("User " +++ str_opt usr +++ " logged in") db in
          (jsonify_ok (PUser (au_username user) (au_role user)), sess', db')
      | [] => (jsonify_error "Invalid credentials" None 401, sess, db)
      end.

(** POST /api/auth/logout *)
Definition logout : handler :=
  require_auth (fun sess db =>
    let usr := username sess in
    let sess' := session_clear in
    let db' := log_action sess' "LOGOUT"
                 ("User " +++ str_opt usr +++ " logged out") db in
    (jsonify_ok (PMessage "Logged out"), sess', db')).

(** GET /api/auth/status *)
Definition auth_status : handler :=
  fun sess db =>
    if has_user_id sess
    then (jsonify_ok (PStatus true (Some (username sess, role sess))), sess, db)
    else (jsonify_ok (PStatus false None), sess, db).

(** GET /api/leaderboard/weekly *)
Definition get_weekly_leaderboard (now : clock) : handler :=
  fun sess db =>
    let week_start := get_week_start now in
    let data := leaderboard_data (members db) (weekly_leaderboard db) week_start in
    (jsonify_ok (PLeaderboard "weekly" week_start data), sess, db).

(** GET /api/leaderboard/monthly *)
Definition get_monthly_leaderboard (now : clock) : handler :=
  fun sess db =>
    let month_year := get_month_year now in
    let data := leaderboard_data (members db) (monthly_leaderboard db) month_year in
    (jsonify_ok (PLeaderboard "monthly" month_year data), sess, db).

Definition default_avatar (name : string) : string :=
  "https://ui-avatars.com/api/?name=" +++ replace_space_plus name
    +++ "&background=ff642c&color=fff&size=200".

(** POST /api/admin/members *)
Definition add_member (data_name data_avatar : field string) : handler :=
  require_auth (fun sess db =>
    if not_str (get data_name)
    then (jsonify_error "Name is required" None 400, sess, db)
    else
      let name := str_opt (get data_name) in
      let avatar := get_default data_avatar (default_avatar name) in
      match insert_member name avatar db with
      | Some (db', member_id) =>
          let db'' := log_action sess "ADD_MEMBER"
                        ("Added member: " +++ name +++ " (ID: "
                           +++ str_int member_id +++ ")") db' in
          (jsonify_ok (PMember member_id name avatar), sess, db'')
      | None => (jsonify_error "Member already exists" None 400, sess, db)
      end).

(** POST /api/admin/leaderboard/weekly/update *)
Definition update_weekly_leaderboard (now : clock) (data_member_id : field id_value)
    (data_sessions data_assessments data_bonus : field Z) : handler :=
  require_auth (fun sess db =>
    let mid := get data_member_id in
    let sessions := get_default data_sessions 0 in
    let assessments := get_default data_assessments 0 in
    let bonus := get_default data_bonus 0 in
    if not_id mid
    then (jsonify_error "member_id is required" None 400, sess, db)
    else
      let week_start := get_week_start now in
      match bind_id mid with
      | BindError => (internal_server_error, sess, db)
      | NoKey => (jsonify_error "Member not found" None 404, sess, db)
      | Key key =>
          match select_member_name key (members db) with
          | None => (jsonify_error "Member not found" None 404, sess, db)
          | Some member_name =>
              if bindable sessions && bindable assessments && bindable bonus
              then
                let db' := set_weekly
                             (upsert_stat key sessions assessments bonus
                                          week_start (weekly_leaderboard db)) db in
                let db'' := log_action sess "UPDATE_WEEKLY"
                              ("Updated weekly stats for " +++ member_name) db' in
                (jsonify_ok (PMessage "Weekly leaderboard updated"), sess, db'')
              else (internal_server_error, sess, db)
          end
      end).

(** POST /api/admin/leaderboard/monthly/update *)
Definition update_monthly_leaderboard (now : clock) (data_member_id : field id_value)
    (data_sessions data_assessments data_bonus : field Z) : handler :=
  require_auth (fun sess db =>
    let mid := get data_member_id in
    let sessions := get_default data_sessions 0 in
    let assessments := get_default data_assessments 0 in
    let bonus := get_default data_bonus 0 in
    if not_id mid
    then (jsonify_error "member_id is required" None 400, sess, db)
    else
      let month_year := get_month_year now in
      match bind_id mid with
      | BindError => (internal_server_error, sess, db)
      | NoKey => (jsonify_error "Member not found" None 404, sess, db)
      | Key key =>
          match select_member_name key (members db) with
          | None => (jsonify_error "Member not found" None 404, sess, db)
          | Some member_name =>
              if bindable sessions && bindable assessments && bindable bonus
              then
                let db' := set_monthly
                             (upsert_stat key sessions assessments bonus
                                          month_year (monthly_leaderboard db)) db in
                let db'' := log_action sess "UPDATE_MONTHLY"
                              ("Updated monthly stats for " +++ member_name) db' in
                (jsonify_ok (PMessage "Monthly leaderboard updated"), sess, db'')
              else (internal_server_error, sess, db)
          end
      end).

(** DELETE /api/admin/members/<int:member_id>: the three DELETE statements
    run on one connection and are committed together.  The route accepts
    any non-negative integer; one that does not fit 64 bits makes the first
    SELECT raise. *)
Definition delete_member (mid : Z) : handler :=
  require_auth (fun sess db =>
    if negb (in_int64 mid) then (internal_server_error, sess, db)
    else
    match select_member_name mid (members db) with
    | None => (jsonify_error "Member not found" None 404, sess, db)
    | Some member_name =>
        let conn := set_weekly (delete_stats_of mid (weekly_leaderboard db)) db in
        let conn := set_monthly (delete_stats_of mid (monthly_leaderboard conn)) conn in
        let conn := set_members (delete_member_row mid (members conn))
                                (seq_members conn) conn in
        let db' := log_action sess "DELETE_MEMBER"
                     ("Deleted member: " +++ member_name +++ " (ID: "
                        +++ str_int mid +++ ")") conn in
        (jsonify_ok (PMessage ("Member " +++ member_name +++ " deleted")), sess, db')
    end).

(** DELETE /api/admin/leaderboard/weekly/<int:member_id> *)
Definition delete_weekly_entry (now : clock) (mid : Z) : handler :=
  require_auth (fun sess db =>
    let week_start := get_week_start now in
    if negb (in_int64 mid) then (internal_server_error, sess, db)
    else
    match filter (same_key mid week_start) (weekly_leaderboard db) with
    | [] => (jsonify_error "Entry not found" None 404, sess, db)
    | _ :: _ =>
        let db' := set_weekly (delete_stat mid week_start (weekly_leaderboard db)) db in
        let db'' := log_action sess "DELETE_WEEKLY"
                      ("Deleted weekly stats for member ID " +++ str_int mid) db' in
        (jsonify_ok (PMessage "Weekly leaderboard entry deleted"), sess, db'')
    end).

(** DELETE /api/admin/leaderboard/monthly/<int:member_id> *)
Definition delete_monthly_entry (now : clock) (mid : Z) : handler :=
  require_auth (fun sess db =>
    let month_year := get_month_year now in
    if negb (in_int64 mid) then (internal_server_error, sess, db)
    else
    match filter (same_key mid month_year) (monthly_leaderboard db) with
    | [] => (jsonify_error "Entry not found" None 404, sess, db)
    | _ :: _ =>
        let db' := set_monthly (delete_stat mid month_year (monthly_leaderboard db)) db in
        let db'' := log_action sess "DELETE_MONTHLY"
                      ("Deleted monthly stats for member ID " +++ str_int mid) db' in
        (jsonify_ok (PMessage "Monthly leaderboard entry deleted"), sess, db'')
    end).

(** ** Routes *)

(** The routes that read or write the session or the database.  The
    read-only routes [/api/members] and [/api/health] and the static files
    touch neither and are left out. *)

Inductive request : Type :=
| Login (data_username data_password : field string)
| Logout
| AuthStatus
| GetWeeklyLeaderboard
| GetMonthlyLeaderboard
| AddMember (data_name data_avatar : field string)
| UpdateWeeklyLeaderboard (data_member_id : field id_value)
    (data_sessions data_assessments data_bonus : field Z)
| UpdateMonthlyLeaderboard (data_member_id : field id_value)
    (data_sessions data_assessments data_bonus : field Z)
| DeleteMember (mid : Z)
| DeleteWeeklyEntry (mid : Z)
| DeleteMonthlyEntry (mid : Z).

(** The operation behind each route, before any decorator. *)
Definition app (now : clock) (r : request) : handler :=
  match r with
  | Login u p => login u p
  | Logout => logout
  | AuthStatus => auth_status
  | GetWeeklyLeaderboard => get_weekly_leaderboard now
  | GetMonthlyLeaderboard => get_monthly_leaderboard now
  | AddMember n a => add_member n a
  | UpdateWeeklyLeaderboard m s a b => update_weekly_leaderboard now m s a b
  | UpdateMonthlyLeaderboard m s a b => update_monthly_leaderboard now m s a b
  | DeleteMember mid => delete_member mid
  | DeleteWeeklyEntry mid => delete_weekly_entry now mid
  | DeleteMonthlyEntry mid => delete_monthly_entry now mid
  end.

(** The routes that carry the [@require_auth] decorator. *)
Definition protected (r : request) : bool :=
  match r with
  | Login _ _ | AuthStatus | GetWeeklyLeaderboard | GetMonthlyLeaderboard => false
  | _ => true
  end.

(** The states the service can be in: the database after [init_db] on a new
    file, with a client that holds no session, and then any sequence of
    requests at any times. *)
Inductive reachable : session -> database -> Prop :=
| reach_init : reachable session_clear (init_db empty_db)
| reach_step sess db now r resp sess' db' :
    reachable sess db ->
    app now r sess db = (resp, sess', db') ->
    reachable sess' db'.

End App.

(** ** Schema constraints and sample data *)

Definition stat_key (r : stat_row) : Z * string := (member_id r, period r).

(** The PRIMARY KEY and UNIQUE constraints of the schema that the
    leaderboard queries and the upserts rely on. *)
Definition schema_ok (db : database) : Prop :=
  NoDup (map m_id (members db))
  /\ NoDup (map m_name (members db))
  /\ NoDup (map stat_key (weekly_leaderboard db))
  /\ NoDup (map stat_key (monthly_leaderboard db)).

(** Facts about stored rows that the handlers maintain on top of the schema:
    keys of members are positive and below the sequence, names are not
    empty. *)
Definition app_inv (db : database) : Prop :=
  schema_ok db
  /\ Forall (fun m => 0 < m_id m <= seq_members db /\ m_name m <> ""%string) (members db).


(** An integer that SQLite's signed 64-bit INTEGER holds. *)
Definition fits (z : Z) : Prop := - 2 ^ 63 <= z < 2 ^ 63.

(** The counter that a nullable column stands for in a listing. *)
Definition or_zero (x : option Z) : Z :=
  match x with
  | Some v => v
  | None => 0
  end.

(** The entry [e] shows the member [m] with the counters of a row that
    [rows] holds for [m] and the period [p], a NULL counter counting as 0,
    or with zeros and a zero total when [rows] holds no such row; the total
    is the score of the counters shown. *)
Definition shows (rows : list stat_row) (p : string) (m : member) (e : entry) : Prop :=
  entry_id e = m_id m /\ entry_name e = m_name m /\ entry_avatar e = m_avatar m
  /\ (((forall r, In r rows -> member_id r = m_id m -> period r <> p)
       /\ sessionsAttended e = 0 /\ assessmentsSubmitted e = 0
       /\ bonusPoints e = 0 /\ totalPoints e = 0)
      \/ (exists r, In r rows /\ member_id r = m_id m /\ period r = p
                    /\ sessionsAttended e = or_zero (sessions_attended r)
                    /\ assessmentsSubmitted e = or_zero (assessments_submitted r)
                    /\ bonusPoints e = or_zero (bonus_points r)))
  /\ totalPoints e
     = calculate_points (sessionsAttended e) (assessmentsSubmitted e) (bonusPoints e).




(** A stand-in digest for running the handlers on concrete inputs. *)
Definition sample_digest (s : string) : string := ("sha256:" +++ s)%string.

Definition sample_clock : clock :=
  {| week_start := "2024-01-01"; month_year := "2024-01" |}.

Definition admin_session : session :=
  {| user_id := Some 1; username := Some "admin"%string; role := Some "admin"%string |}.

Definition alice : member :=
  {| m_id := 1; m_name := "Alice"; m_avatar := Some (default_avatar "Alice") |}.

Definition bob : member :=
  {| m_id := 2; m_name := "Bob Ray"; m_avatar := None |}.

Definition sample_db : database :=
  {| admin_users := [{| au_id := 1; au_username := "admin";
                        au_password_hash := sample_digest "synapse2024";
                        au_role := "admin" |}];
     members := [alice; bob];
     weekly_leaderboard :=
       [{| member_id := 2; sessions_attended := Some 1; assessments_submitted := None;
           bonus_points := Some 2; period := "2024-01-01" |};
        {| member_id := 1; sessions_attended := Some 3; assessments_submitted := Some 1;
           bonus_points := Some 5; period := "2024-01-01" |};
        {| member_id := 1; sessions_attended := Some 9; assessments_submitted := Some 9;
           bonus_points := Some 9; period := "2023-12-25" |}];
     monthly_leaderboard :=
       [{| member_id := 1; sessions_attended := Some 4; assessments_submitted := Some 0;
           bonus_points := Some 0; period := "2024-01" |}];
     audit_log := [];
     seq_admin_users := 1;
     seq_members := 2 |}.

(** ** Specification vocabulary *)

(** The row that an upsert with these bound parameters leaves behind. *)
Definition new_stat (mid : Z) (s a b : option Z) (p : string) : stat_row :=
  {| member_id := mid; sessions_attended := s; assessments_submitted := a;
     bonus_points := b; period := p |}.

(** The listing carried by the response of a leaderboard route. *)
Definition listing_of (h : handler) (sess : session) (db : database) : list entry :=
  match body (fst (fst (h sess db))) with
  | PLeaderboard _ _ data => data
  | _ => []
  end.

(** The value that an upsert stores for a counter key of the body: 0 when
    the key is missing, NULL when it is null. *)
Definition sent (f : field Z) : option Z :=
  match f with
  | Absent => Some 0
  | Null => None
  | Val v => Some v
  end.

(** The counter key of the body can be stored: it is missing, null, or an
    integer of 64 bits. *)
Definition fits_counter (f : field Z) : Prop :=
  match f with
  | Val v => fits v
  | _ => True
  end.

(** The [member_id] key is missing or holds a value that Python takes for
    false: null, false, 0, 0.0, the empty string, array or object. *)
Definition falsy_id (m : field id_value) : Prop :=
  m = Absent \/ m = Null \/ m = Val (IdInt 0) \/ m = Val (IdBool false)
  \/ m = Val IdZeroFloat \/ m = Val IdEmptyString
  \/ m = Val IdEmptyArray \/ m = Val IdEmptyObject.

(** The [member_id] key stands for the member id [mid]: a non-zero integer
    of 64 bits, or [true], which SQLite receives as 1. *)
Definition names_id (m : field id_value) (mid : Z) : Prop :=
  (m = Val (IdInt mid) /\ mid <> 0 /\ fits mid) \/ (m = Val (IdBool true) /\ mid = 1).

(** The [member_id] key holds a value that [sqlite3] refuses to bind: an
    integer outside 64 bits, a non-empty array or object. *)
Definition unbindable_id (m : field id_value) : Prop :=
  (exists z, m = Val (IdInt z) /\ ~ fits z) \/ m = Val IdArray \/ m = Val IdObject.

(** The table [rows'] holds exactly one row for the key ([mid], [p]), namely
    [row], and keys are unique in it. *)
Definition one_row (rows' : list stat_row) (mid : Z) (p : string) (row : stat_row) : Prop :=
  In row rows'
  /\ (forall r, In r rows' -> member_id r = mid -> period r = p -> r = row)
  /\ NoDup (map stat_key rows').

(** What an authenticated stat upsert on [table] at period [p] does, by the
    value of the [member_id] key of the body. *)
Definition upsert_outcome (table : database -> list stat_row) (p : string)
    (m : field id_value) (s a b : field Z) (sess : session) (db : database)
    (result : response * session * database) : Prop :=
  (falsy_id m ->
     result = (jsonify_error "member_id is required" None 400, sess, db))
  /\ (status (fst (fst result)) = 400 -> falsy_id m)
  /\ (unbindable_id m -> result = (internal_server_error, sess, db))
  /\ (forall mid, names_id m mid ->
        (forall x, In x (members db) -> m_id x <> mid) ->
        result = (jsonify_error "Member not found" None 404, sess, db))
  /\ (forall mid, names_id m mid ->
        (exists x, In x (members db) /\ m_id x = mid) ->
        fits_counter s -> fits_counter a -> fits_counter b ->
        success (fst (fst result)) = true
        /\ status (fst (fst result)) = 200
        /\ snd (fst result) = sess
        /\ one_row (table (snd result)) mid p (new_stat mid (sent s) (sent a) (sent b) p)
        /\ (forall r, (member_id r, period r) <> (mid, p) ->
              (In r (table (snd result)) <-> In r (table db)))
        /\ members (snd result) = members db)
  /\ (forall mid, names_id m mid ->
        (exists x, In x (members db) /\ m_id x = mid) ->
        ~ (fits_counter s /\ fits_counter a /\ fits_counter b) ->
        result = (internal_server_error, sess, db)).

(** Runs a sequence of timed requests of one client. *)
Fixpoint run (hash_password : string -> string) (trace : list (clock * request))
    (sess : session) (db : database) : session * database :=
  match trace with
  | [] => (sess, db)
  | (now, r) :: trace' =>
      let '(_, sess', db') := app hash_password now r sess db in
      run hash_password trace' sess' db'
  end.

Fixpoint string_forallb (f : ascii -> bool) (s : string) : bool :=
  match s with
  | EmptyString => true
  | String c s' => f c && string_forallb f s'
  end.

(** The characters that URL-encoding keeps: letters, digits and [-_.~]. *)
Definition unreserved (c : ascii) : bool :=
  let n := nat_of_ascii c in
  ((65 <=? n) && (n <=? 90))%nat || ((97 <=? n) && (n <=? 122))%nat
  || ((48 <=? n) && (n <=? 57))%nat
  || Ascii.eqb c "-" || Ascii.eqb c "_" || Ascii.eqb c "." || Ascii.eqb c "~".

(** The upper-case hexadecimal digit of a number below 16. *)
Definition hex_digit (n : nat) : ascii :=
  if (n <? 10)%nat then ascii_of_nat (48 + n) else ascii_of_nat (55 + n).

(** The spec's wording of the default avatar, for comparison with
    [default_avatar]: the name URL-encoded as a query component, that is,
    unreserved characters kept, a space written as [+], and every other
    byte written as a percent sign and two hexadecimal digits. *)
Definition spec_url_encode_char (c : ascii) : string :=
  if Ascii.eqb c " " then "+"%string
  else if unreserved c then String c EmptyString
  else String "%" (String (hex_digit (nat_of_ascii c / 16))
                     (String (hex_digit (nat_of_ascii c mod 16)) EmptyString)).

Fixpoint spec_url_encode (s : string) : string :=
  match s with
  | EmptyString => EmptyString
  | String c s' => (spec_url_encode_char c +++ spec_url_encode s')%string
  end.

Definition spec_default_avatar (name : string) : string :=
  ("https://ui-avatars.com/api/?name=" +++ spec_url_encode name
     +++ "&background=ff642c&color=fff&size=200")%string.

(** Sample traces: the administrator logs in, adds Alice, and records her
    weekly stats. *)
Definition login_admin : clock * request :=
  (sample_clock, Login (Val "admin"%string) (Val "synapse2024"%string)).

Definition add_alice : clock * request :=
  (sample_clock, AddMember (Val "Alice"%string) Absent).

Definition alice_weekly (s a b : Z) : clock * request :=
  (sample_clock, UpdateWeeklyLeaderboard (Val (IdInt 1)) (Val s) (Val a) (Val b)).

(** Two weekly upserts for Alice in the same week. *)
Definition alice_first_upsert : response * session * database :=
  update_weekly_leaderboard sample_clock (Val (IdInt 1)) (Val 1) (Val 1) (Val 1)
    admin_session sample_db.

Definition alice_second_upsert : response * session * database :=
  update_weekly_leaderboard sample_clock (Val (IdInt 1)) (Val 3) (Val 1) (Val 5)
    (snd (fst alice_first_upsert)) (snd alice_first_upsert).

(** A trace in which Alice's weekly sessions are recorded as -1. *)
Definition negative_trace : list (clock * request) :=
  [login_admin; add_alice; alice_weekly (-1) 0 0].

Definition negative_state : session * database :=
  run sample_digest negative_trace session_clear (init_db sample_digest empty_db).

(** ** The remaining routes and helpers *)

(** [date.weekday()] on a date given by its proleptic Gregorian ordinal, as
    Python's [date] counts days: ordinal 1 is Monday 0001-01-01, Monday is 0
    and Sunday is 6. *)
Definition weekday (ordinal : Z) : Z := (ordinal + 6) mod 7.

(** The date computed by [get_week_start] before it is printed:
    [today - timedelta(days=today.weekday())]. *)
Definition get_week_start_date (today : Z) : Z := today - weekday today.

(** The envelope of GET /api/members: [success] and the [data] list of
    {id, name, avatar} dictionaries. *)
Record members_response := {
  members_success : bool;
  members_data : list member;
  members_status : Z }.

(** [ORDER BY name]: ascending in the byte order of the BINARY collation,
    as a stable sort. *)
Fixpoint insert_by_name (x : member) (sorted : list member) : list member :=
  match sorted with
  | [] => [x]
  | y :: rest =>
      if String.leb (m_name x) (m_name y) then x :: y :: rest
      else y :: insert_by_name x rest
  end.

Definition order_by_name (rows : list member) : list member :=
  fold_right insert_by_name [] rows.

(** GET /api/members *)
Definition get_members (sess : session) (db : database)
  : members_response * session * database :=
  let rows := order_by_name (members db) in
  ({| members_success := true; members_data := rows; members_status := 200 |},
   sess, db).

(** The routes that only read. *)
Definition read_only (r : request) : bool :=
  match r with
  | AuthStatus | GetWeeklyLeaderboard | GetMonthlyLeaderboard => true
  | _ => false
  end.

(** The action tag that a route passes to [log_action], if it logs. *)
Definition audit_tag (r : request) : option string :=
  match r with
  | Login _ _ => Some "LOGIN"
  | Logout => Some "LOGOUT"
  | AuthStatus | GetWeeklyLeaderboard | GetMonthlyLeaderboard => None
  | AddMember _ _ => Some "ADD_MEMBER"
  | UpdateWeeklyLeaderboard _ _ _ _ => Some "UPDATE_WEEKLY"
  | UpdateMonthlyLeaderboard _ _ _ _ => Some "UPDATE_MONTHLY"
  | DeleteMember _ => Some "DELETE_MEMBER"
  | DeleteWeeklyEntry _ => Some "DELETE_WEEKLY"
  | DeleteMonthlyEntry _ => Some "DELETE_MONTHLY"
  end.

(** The account that [init_db] creates on a new database file. *)
Definition default_admin (hash_password : string -> string) : admin_user :=
  {| au_id := 1; au_username := "admin";
     au_password_hash := hash_password "synapse2024"; au_role := "admin" |}.

(** Every stat row belongs to a stored member. *)
Definition no_orphans (db : database) : Prop :=
  forall r, In r (weekly_leaderboard db) \/ In r (monthly_leaderboard db) ->
            exists m, In m (members db) /\ m_id m = member_id r.

(** The entry shows no activity. *)
Definition zero_entry (e : entry) : Prop :=
  sessionsAttended e = 0 /\ assessmentsSubmitted e = 0
  /\ bonusPoints e = 0 /\ totalPoints e = 0.

(** What an authenticated deletion of the stat entry of member [mid] on
    [table] at the current period [p] does; [again] is the same request
    repeated on the database that the first one leaves. *)
Definition delete_entry_outcome (table : database -> list stat_row) (p : string)
    (mid : Z) (sess : session) (db : database)
    (result : response * session * database)
    (again : database -> response * session * database) : Prop :=
  (~ fits mid -> result = (internal_server_error, sess, db))
  /\ (fits mid ->
      (forall r, In r (table db) -> member_id r = mid -> period r <> p) ->
      result = (jsonify_error "Entry not found" None 404, sess, db))
  /\ (fits mid ->
      (exists r, In r (table db) /\ member_id r = mid /\ period r = p) ->
      success (fst (fst result)) = true
      /\ snd (fst result) = sess
      /\ (forall r, In r (table (snd result))
                    <-> In r (table db) /\ ~ (member_id r = mid /\ period r = p))
      /\ members (snd result) = members db
      /\ (forall m, In m (members db) -> m_id m = mid ->
            exists e,
              In e (leaderboard_data (members (snd result)) (table (snd result)) p)
              /\ entry_id e = mid /\ entry_name e = m_name m /\ zero_entry e)
      /\ (forall e, In e (leaderboard_data (members (snd result)) (table (snd result)) p) ->
                    entry_id e = mid -> zero_entry e)
      /\ again (snd result)
         = (jsonify_error "Entry not found" None 404, sess, snd result)).

(** The entry shows the member [mid] with the stored counters [s], [a] and
    [b], a NULL counter counting as 0, and with their score as total. *)
Definition shows_values (mid : Z) (s a b : option Z) (e : entry) : Prop :=
  entry_id e = mid
  /\ sessionsAttended e = or_zero s
  /\ assessmentsSubmitted e = or_zero a
  /\ bonusPoints e = or_zero b
  /\ totalPoints e = or_zero s * 10 + or_zero a * 20 + or_zero b.




(** ** Lists: the stable descending sort *)

Lemma insert_desc_perm {A : Type} (key : A -> Z) (x : A) (l : list A) :
  Permutation (insert_desc key x l) (x :: l).
Proof.
  induction l as [|y l IH]; simpl.
  - apply Permutation_refl.
  - destruct (key y <=? key x).
    + apply Permutation_refl.
    + eapply perm_trans; [apply perm_skip, IH | apply perm_swap].
Qed.

Lemma order_by_desc_perm {A : Type} (key : A -> Z) (l : list A) :
  Permutation (order_by_desc key l) l.
Proof.
  induction l as [|x l IH]; simpl.
  - constructor.
  - eapply perm_trans; [apply insert_desc_perm | apply perm_skip, IH].
Qed.




(** ** The join under the UNIQUE constraint *)

Lemma same_key_spec (mid : Z) (p : string) (r : stat_row) :
  same_key mid p r = true <-> stat_key r = (mid, p).
Proof.
  unfold same_key, stat_key. rewrite andb_true_iff, Z.eqb_eq, String.eqb_eq.
  split.
  - intros [-> ->]. reflexivity.
  - intros E. inversion E. split; reflexivity.
Qed.

Lemma filter_same_key_nil (mid : Z) (p : string) (rows : list stat_row) :
  ~ In (mid, p) (map stat_key rows) -> filter (same_key mid p) rows = [].
Proof.
  induction rows as [|r rows IH]; simpl; intros Hn; [reflexivity|].
  destruct (same_key mid p r) eqn:E.
  - apply same_key_spec in E. exfalso. apply Hn. left. exact E.
  - apply IH. intros Hin. apply Hn. right. exact Hin.
Qed.



(** ** The upsert *)

Lemma upsert_stat_keys (mid : Z) (s a b : option Z) (p : string) (rows : list stat_row) :
  map stat_key (upsert_stat mid s a b p rows)
  = if existsb (same_key mid p) rows then map stat_key rows
    else map stat_key rows ++ [(mid, p)].
Proof.
  induction rows as [|r rows IH]; simpl; [reflexivity|].
  destruct (same_key mid p r) eqn:E; simpl.
  - reflexivity.
  - rewrite IH. destruct (existsb (same_key mid p) rows); reflexivity.
Qed.

Lemma upsert_stat_NoDup (mid : Z) (s a b : option Z) (p : string) (rows : list stat_row) :
  NoDup (map stat_key rows) ->
  NoDup (map stat_key (upsert_stat mid s a b p rows)).
Proof.
  intros Hnd. rewrite upsert_stat_keys.
  destruct (existsb (same_key mid p) rows) eqn:E; [exact Hnd|].
  apply NoDup_app; [exact Hnd | repeat constructor; intros [] |].
  intros k Hin [<- | []].
  apply in_map_iff in Hin. destruct Hin as (r & Hk & Hr).
  apply same_key_spec in Hk.
  assert (existsb (same_key mid p) rows = true) as E'
    by (apply existsb_exists; exists r; split; assumption).
  congruence.
Qed.

Lemma upsert_stat_filter (mid : Z) (s a b : option Z) (p : string) (rows : list stat_row) :
  NoDup (map stat_key rows) ->
  filter (same_key mid p) (upsert_stat mid s a b p rows) = [new_stat mid s a b p].
Proof.
  induction rows as [|r rows IH]; simpl; intros Hnd.
  - unfold same_key. simpl. rewrite Z.eqb_refl, String.eqb_refl. reflexivity.
  - inversion Hnd as [|k ks Hnotin Hnd']; subst.
    destruct (same_key mid p r) eqn:E; simpl.
    + pose proof E as E'. apply same_key_spec in E'. inversion E' as [[Em Ep]].
      unfold same_key at 1. simpl. rewrite Em, Ep, Z.eqb_refl, String.eqb_refl. simpl.
      rewrite filter_same_key_nil; [reflexivity|].
      unfold stat_key in Hnotin at 1. rewrite Em, Ep in Hnotin. exact Hnotin.
    + rewrite E. apply IH. exact Hnd'.
Qed.

Lemma upsert_stat_other (mid mid' : Z) (s a b : option Z) (p p' : string)
    (rows : list stat_row) :
  (mid', p') <> (mid, p) ->
  filter (same_key mid' p') (upsert_stat mid s a b p rows)
  = filter (same_key mid' p') rows.
Proof.
  intros Hne.
  assert (Hnew : forall r, stat_key r = (mid, p) -> same_key mid' p' r = false).
  { intros r Hk. destruct (same_key mid' p' r) eqn:E; [|reflexivity].
    apply same_key_spec in E. congruence. }
  induction rows as [|r rows IH]; simpl.
  - fold (new_stat mid s a b p). rewrite (Hnew (new_stat mid s a b p)); reflexivity.
  - destruct (same_key mid p r) eqn:E; simpl.
    + apply same_key_spec in E.
      rewrite (Hnew r E).
      rewrite (Hnew {| member_id := member_id r; sessions_attended := s;
                       assessments_submitted := a; bonus_points := b;
                       period := period r |}); [reflexivity | exact E].
    + rewrite IH. reflexivity.
Qed.

(** ** Deletions and insertions keep the constraints *)

Lemma NoDup_map_filter {A B : Type} (f : A -> B) (g : A -> bool) (l : list A) :
  NoDup (map f l) -> NoDup (map f (filter g l)).
Proof.
  induction l as [|x l IH]; simpl; intros Hnd; [constructor|].
  inversion Hnd as [|k ks Hnotin Hnd']; subst.
  destruct (g x); simpl; [|apply IH; exact Hnd'].
  constructor; [|apply IH; exact Hnd'].
  intros Hin. apply Hnotin.
  apply in_map_iff in Hin. destruct Hin as (y & Hy & Hin).
  apply filter_In in Hin. apply in_map_iff. exists y. tauto.
Qed.

Lemma max_rowid_ge {A : Type} (rowid : A -> Z) (rows : list A) :
  0 <= max_rowid rowid rows
  /\ forall r, In r rows -> rowid r <= max_rowid rowid rows.
Proof.
  induction rows as [|x rows [IH0 IH]]; simpl.
  - split; [lia | intros r []].
  - split; [lia|]. intros r [<- | Hr]; [lia|].
    specialize (IH r Hr). lia.
Qed.

Lemma autoincrement_fresh {A : Type} (rowid : A -> Z) (rows : list A) (seq : Z) :
  0 < autoincrement rowid rows seq
  /\ seq < autoincrement rowid rows seq
  /\ forall r, In r rows -> rowid r < autoincrement rowid rows seq.
Proof.
  unfold autoincrement.
  destruct (max_rowid_ge rowid rows) as [H0 H].
  repeat split; try lia.
  intros r Hr. specialize (H r Hr). lia.
Qed.

Lemma insert_member_spec (name : string) (avatar : option string) (db : database) :
  match insert_member name avatar db with
  | None => exists m, In m (members db) /\ m_name m = name
  | Some (db', rowid) =>
      (forall m, In m (members db) -> m_name m <> name /\ m_id m < rowid)
      /\ 0 < rowid /\ seq_members db < rowid
      /\ db' = set_members
                 (members db ++ [{| m_id := rowid; m_name := name; m_avatar := avatar |}])
                 rowid db
  end.
Proof.
  unfold insert_member.
  destruct (existsb (fun m => (m_name m =? name)%string) (members db)) eqn:E.
  - apply existsb_exists in E. destruct E as (m & Hm & E).
    apply String.eqb_eq in E. exists m. split; assumption.
  - destruct (autoincrement_fresh m_id (members db) (seq_members db)) as (H0 & Hs & Hf).
    repeat split; try assumption.
    + intros En.
      assert (existsb (fun m0 => (m_name m0 =? name)%string) (members db) = true) as E'
        by (apply existsb_exists; exists m; split;
            [assumption | apply String.eqb_eq; exact En]).
      congruence.
    + apply Hf. assumption.
Qed.

(** ** Invariants of the reachable states *)

Lemma app_inv_set_weekly (rows : list stat_row) (db : database) :
  app_inv db -> NoDup (map stat_key rows) -> app_inv (set_weekly rows db).
Proof.
  intros ((Hi & Hn & Hw & Hm) & Hf) Hrows.
  split; [|exact Hf]. repeat split; assumption.
Qed.

Lemma app_inv_set_monthly (rows : list stat_row) (db : database) :
  app_inv db -> NoDup (map stat_key rows) -> app_inv (set_monthly rows db).
Proof.
  intros ((Hi & Hn & Hw & Hm) & Hf) Hrows.
  split; [|exact Hf]. repeat split; assumption.
Qed.

Lemma app_inv_insert_member (name : string) (avatar : option string)
    (db db' : database) (rowid : Z) :
  app_inv db -> name <> ""%string ->
  insert_member name avatar db = Some (db', rowid) ->
  app_inv db'.
Proof.
  intros ((Hi & Hn & Hw & Hm) & Hf) Hname Hins.
  pose proof (insert_member_spec name avatar db) as Hspec.
  rewrite Hins in Hspec. destruct Hspec as (Hfresh & H0 & Hseq & ->).
  split; [repeat split|]; simpl; try assumption.
  - rewrite map_app. simpl. apply NoDup_app; [exact Hi | repeat constructor; intros [] |].
    intros k Hin [<- | []].
    apply in_map_iff in Hin. destruct Hin as (m & Hk & Hin).
    destruct (Hfresh m Hin) as [_ Hlt]. lia.
  - rewrite map_app. simpl. apply NoDup_app; [exact Hn | repeat constructor; intros [] |].
    intros k Hin [<- | []].
    apply in_map_iff in Hin. destruct Hin as (m & Hk & Hin).
    destruct (Hfresh m Hin) as [Hne _]. congruence.
  - apply Forall_app. split.
    + eapply Forall_impl; [|exact Hf]. simpl. intros m ((Hp & Hle) & Hne).
      repeat split; try assumption. lia.
    + repeat constructor; simpl; try lia. exact Hname.
Qed.

Lemma app_inv_delete_member (mid : Z) (db : database) :
  app_inv db ->
  app_inv
    (set_members (delete_member_row mid (members db)) (seq_members db)
       (set_monthly (delete_stats_of mid (monthly_leaderboard db))
          (set_weekly (delete_stats_of mid (weekly_leaderboard db)) db))).
Proof.
  intros ((Hi & Hn & Hw & Hm) & Hf).
  split; [repeat split|]; simpl.
  - apply NoDup_map_filter, Hi.
  - apply NoDup_map_filter, Hn.
  - apply NoDup_map_filter, Hw.
  - apply NoDup_map_filter, Hm.
  - unfold delete_member_row. apply Forall_forall. intros m Hin.
    apply filter_In in Hin. rewrite Forall_forall in Hf. apply Hf. tauto.
Qed.

Lemma not_str_false (x : option string) :
  not_str x = false -> exists s, x = Some s /\ s <> ""%string.
Proof.
  destruct x as [s|]; simpl; [|discriminate].
  intros E. exists s. split; [reflexivity|].
  apply String.eqb_neq. exact E.
Qed.


Lemma in_int64_fits (z : Z) : in_int64 z = true <-> fits z.
Proof.
  unfold in_int64, fits, int64_min, int64_max.
  rewrite andb_true_iff, !Z.leb_le. lia.
Qed.

Lemma bindable_sent (f : field Z) : bindable (get_default f 0) = true <-> fits_counter f.
Proof.
  destruct f as [| |v]; simpl.
  - split; [intros _; exact I | intros _; reflexivity].
  - split; [intros _; exact I | intros _; reflexivity].
  - apply in_int64_fits.
Qed.

Ltac unfold_handlers :=
  unfold app, login, logout, auth_status, get_weekly_leaderboard,
    get_monthly_leaderboard, add_member, update_weekly_leaderboard,
    update_monthly_leaderboard, delete_member, delete_weekly_entry,
    delete_monthly_entry, require_auth.

Ltac handler_cases :=
  repeat match goal with
         | |- context [if ?c then _ else _] => destruct c eqn:?
         | |- context [match ?x with _ => _ end] => destruct x eqn:?
         end.

Ltac unfold_handlers_in H :=
  unfold app, login, logout, auth_status, get_weekly_leaderboard,
    get_monthly_leaderboard, add_member, update_weekly_leaderboard,
    update_monthly_leaderboard, delete_member, delete_weekly_entry,
    delete_monthly_entry, require_auth in H.

Ltac handler_cases_in H :=
  repeat match type of H with
         | context [if ?c then _ else _] => destruct c eqn:?
         | context [match ?x with _ => _ end] => destruct x eqn:?
         end.

Ltac step_cases H :=
  unfold_handlers_in H; handler_cases_in H;
  try match goal with
      | Hins : insert_member ?n ?a ?d = Some _ |- _ =>
          let Hspec := fresh "Hspec" in
          pose proof (insert_member_spec n a d) as Hspec;
          rewrite Hins in Hspec; destruct Hspec as (? & ? & ? & ->)
      end;
  injection H as <- <- <-.

Lemma app_preserves_inv (hash_password : string -> string) (now : clock)
    (r : request) (sess : session) (db : database) :
  app_inv db -> app_inv (snd (app hash_password now r sess db)).
Proof.
  intros Hinv.
  destruct (app hash_password now r sess db) as [[resp sess'] db'] eqn:H. simpl.
  destruct r; unfold_handlers_in H.
  - handler_cases_in H; injection H as <- <- <-; exact Hinv.
  - handler_cases_in H; injection H as <- <- <-; exact Hinv.
  - handler_cases_in H; injection H as <- <- <-; exact Hinv.
  - injection H as <- <- <-; exact Hinv.
  - injection H as <- <- <-; exact Hinv.
  - destruct (negb (has_user_id sess)); [injection H as <- <- <-; exact Hinv|].
    destruct (not_str (get data_name)) eqn:En; [injection H as <- <- <-; exact Hinv|].
    apply not_str_false in En. destruct En as (name & Hn & Hne).
    rewrite Hn in H. simpl in H.
    destruct (insert_member name _ db) as [[db1 rowid]|] eqn:Hins;
      injection H as <- <- <-; [|exact Hinv].
    change (app_inv db1). eapply app_inv_insert_member; eassumption.
  - handler_cases_in H; injection H as <- <- <-; try exact Hinv.
    apply (app_inv_set_weekly _ db Hinv). apply upsert_stat_NoDup. apply Hinv.
  - handler_cases_in H; injection H as <- <- <-; try exact Hinv.
    apply (app_inv_set_monthly _ db Hinv). apply upsert_stat_NoDup. apply Hinv.
  - handler_cases_in H; injection H as <- <- <-; try exact Hinv.
    apply (app_inv_delete_member mid db Hinv).
  - handler_cases_in H; injection H as <- <- <-; try exact Hinv.
    apply (app_inv_set_weekly _ db Hinv). apply NoDup_map_filter. apply Hinv.
  - handler_cases_in H; injection H as <- <- <-; try exact Hinv.
    apply (app_inv_set_monthly _ db Hinv). apply NoDup_map_filter. apply Hinv.
Qed.

Lemma init_db_inv (hash_password : string -> string) :
  app_inv (init_db hash_password empty_db).
Proof.
  split; [repeat split|]; simpl; constructor.
Qed.

Lemma reachable_inv (hash_password : string -> string) (sess : session) (db : database) :
  reachable hash_password sess db -> app_inv db.
Proof.
  induction 1 as [|sess db now r resp sess' db' Hreach IH Hstep].
  - apply init_db_inv.
  - pose proof (app_preserves_inv hash_password now r sess db IH) as H.
    rewrite Hstep in H. exact H.
Qed.

(** ** Lookups *)

Lemma select_member_name_some (mid : Z) (ms : list member) :
  (exists m, In m ms /\ m_id m = mid) ->
  exists name, select_member_name mid ms = Some name.
Proof.
  intros (m & Hin & Hid). unfold select_member_name.
  destruct (filter (fun m0 => m_id m0 =? mid) ms) as [|m0 rest] eqn:E.
  - assert (In m (filter (fun m0 => m_id m0 =? mid) ms)) as Hf
      by (apply filter_In; split; [assumption | apply Z.eqb_eq; assumption]).
    rewrite E in Hf. destruct Hf.
  - eexists. reflexivity.
Qed.

Lemma select_member_name_none (mid : Z) (ms : list member) :
  (forall m, In m ms -> m_id m <> mid) -> select_member_name mid ms = None.
Proof.
  intros Hnone. unfold select_member_name.
  destruct (filter (fun m0 => m_id m0 =? mid) ms) as [|m0 rest] eqn:E; [reflexivity|].
  assert (In m0 (filter (fun m => m_id m =? mid) ms)) as Hf by (rewrite E; left; reflexivity).
  apply filter_In in Hf. destruct Hf as [Hin Hid]. apply Z.eqb_eq in Hid.
  exfalso. exact (Hnone m0 Hin Hid).
Qed.

Lemma select_member_name_in (mid : Z) (ms : list member) (name : string) :
  select_member_name mid ms = Some name ->
  exists m, In m ms /\ m_id m = mid /\ m_name m = name.
Proof.
  unfold select_member_name.
  destruct (filter (fun m0 => m_id m0 =? mid) ms) as [|m0 rest] eqn:E; [discriminate|].
  intros [= <-].
  assert (In m0 (filter (fun m => m_id m =? mid) ms)) as Hf by (rewrite E; left; reflexivity).
  apply filter_In in Hf. destruct Hf as [Hin Hid]. apply Z.eqb_eq in Hid.
  exists m0. repeat split; assumption.
Qed.

(** An authenticated weekly upsert, case by case. *)
Lemma filter_nil_iff {A : Type} (f : A -> bool) (l : list A) :
  filter f l = [] <-> forall x, In x l -> f x = false.
Proof.
  split.
  - intros E x Hin. destruct (f x) eqn:Ef; [|reflexivity].
    assert (In x (filter f l)) as H by (apply filter_In; split; assumption).
    rewrite E in H. destruct H.
  - intros H. induction l as [|y l IH]; simpl; [reflexivity|].
    rewrite (H y (or_introl eq_refl)). apply IH.
    intros x Hx. apply H. right. exact Hx.
Qed.

Lemma run_reachable (hash_password : string -> string) (trace : list (clock * request))
    (sess : session) (db : database) :
  reachable hash_password sess db ->
  reachable hash_password (fst (run hash_password trace sess db))
    (snd (run hash_password trace sess db)).
Proof.
  revert sess db.
  induction trace as [|[now r] trace IH]; intros sess db Hreach; simpl; [exact Hreach|].
  destruct (app hash_password now r sess db) as [[resp sess'] db'] eqn:Hstep.
  apply IH. eapply reach_step; eassumption.
Qed.

Lemma left_join_in (ms : list member) (rows : list stat_row) (p : string)
    (m : member) (w : option stat_row) :
  In (m, w) (left_join ms rows p) ->
  In m ms
  /\ ((w = None /\ filter (same_key (m_id m) p) rows = [])
      \/ exists r, w = Some r /\ In r rows /\ stat_key r = (m_id m, p)).
Proof.
  unfold left_join. intros Hin. apply in_flat_map in Hin.
  destruct Hin as (m' & Hm' & Hin).
  destruct (filter (same_key (m_id m') p) rows) as [|w0 ws] eqn:E.
  - destruct Hin as [[= <- <-] | []]. split; [exact Hm'|]. left. split; [reflexivity|exact E].
  - apply in_map_iff in Hin. destruct Hin as (r & [= <- <-] & Hr).
    split; [exact Hm'|]. right. exists r. split; [reflexivity|].
    rewrite <- E in Hr. apply filter_In in Hr. destruct Hr as [Hr Hk].
    apply same_key_spec in Hk. split; assumption.
Qed.

Lemma leaderboard_data_in (ms : list member) (rows : list stat_row) (p : string)
    (e : entry) :
  In e (leaderboard_data ms rows p) ->
  exists m w, In (m, w) (left_join ms rows p) /\ e = with_total_points (m, w).
Proof.
  unfold leaderboard_data. intros He.
  apply in_map_iff in He. destruct He as ([m w] & <- & Hjr).
  apply (Permutation_in _ (order_by_desc_perm order_key _)) in Hjr.
  exists m, w. split; [exact Hjr | reflexivity].
Qed.

(** How an entry of a listing is computed from the stat row [w] joined to
    its member, if any. *)
Lemma left_join_ext (ms : list member) (rows rows' : list stat_row) (p : string) :
  (forall mid, filter (same_key mid p) rows' = filter (same_key mid p) rows) ->
  left_join ms rows' p = left_join ms rows p.
Proof.
  intros Hext. unfold left_join. apply flat_map_ext. intros m. rewrite Hext. reflexivity.
Qed.

Lemma leaderboard_data_member (ms : list member) (rows : list stat_row) (p : string)
    (m : member) (w : stat_row) :
  In m ms ->
  filter (same_key (m_id m) p) rows = [w] ->
  In (with_total_points (m, Some w)) (leaderboard_data ms rows p).
Proof.
  intros Hm Hf. unfold leaderboard_data. apply in_map.
  apply (Permutation_in _ (Permutation_sym (order_by_desc_perm order_key _))).
  unfold left_join. apply in_flat_map. exists m. split; [exact Hm|].
  rewrite Hf. left. reflexivity.
Qed.

(** After a successful weekly (resp. monthly) upsert, the weekly (resp.
    monthly) listing of the same period shows the member with exactly the
    values of the call, 0 standing for an omitted or null counter, and with
    the total computed from them. *)

(** ** The listing *)

Lemma or_zero_COALESCE (x : option Z) : COALESCE x 0 = or_zero x.
Proof. destruct x; reflexivity. Qed.

Lemma get_default_sent (f : field Z) : get_default f 0 = sent f.
Proof. destruct f; reflexivity. Qed.

Lemma with_total_points_shows (ms : list member) (rows : list stat_row) (p : string)
    (m : member) (w : option stat_row) :
  In (m, w) (left_join ms rows p) ->
  In m ms /\ shows rows p m (with_total_points (m, w)).
Proof.
  intros Hin. apply left_join_in in Hin.
  destruct Hin as [Hm [[-> Hnone] | (r & -> & Hr & Hk)]].
  - split; [exact Hm|]. unfold shows. simpl.
    repeat (split; [reflexivity|]). split; [|reflexivity].
    left. split; [|repeat split; reflexivity].
    intros r Hr Hid Hp. rewrite filter_nil_iff in Hnone.
    specialize (Hnone r Hr).
    assert (same_key (m_id m) p r = true) as E
      by (apply same_key_spec; unfold stat_key; rewrite Hid, Hp; reflexivity).
    congruence.
  - split; [exact Hm|]. unfold shows. simpl.
    repeat (split; [reflexivity|]). split; [|reflexivity].
    right. exists r. inversion Hk as [[Hid Hp]].
    split; [exact Hr|]. split; [reflexivity|]. split; [reflexivity|].
    rewrite !or_zero_COALESCE. repeat split; reflexivity.
Qed.

Lemma leaderboard_data_shows (ms : list member) (rows : list stat_row) (p : string)
    (e : entry) :
  In e (leaderboard_data ms rows p) -> exists m, In m ms /\ shows rows p m e.
Proof.
  intros He. apply leaderboard_data_in in He. destruct He as (m & w & Hin & ->).
  exists m. apply (with_total_points_shows ms rows p m w Hin).
Qed.





(** ** Sample stores *)

Ltac distinct_keys :=
  repeat (constructor;
          [simpl; intuition (try discriminate; try congruence)|]);
  constructor.

Lemma sample_db_schema_ok : schema_ok sample_db.
Proof. repeat split; simpl; distinct_keys. Qed.

Lemma sample_db_inv : app_inv sample_db.
Proof.
  split; [exact sample_db_schema_ok|].
  repeat constructor; simpl; try lia; discriminate.
Qed.


(** C1: for non-negative s, a, b the score is exactly 10s + 20a + b; the
    function is total (it is a Rocq function, every call has a value) and it
    is monotonically non-decreasing in each of its three arguments. *)
Theorem calculate_points_spec (s a b : Z) (Hs : 0 <= s) (Ha : 0 <= a) (Hb : 0 <= b) :
  calculate_points s a b = s * 10 + a * 20 + b
  /\ (exists r : Z, calculate_points s a b = r /\ 0 <= r)
  /\ (forall s', s <= s' -> calculate_points s a b <= calculate_points s' a b)
  /\ (forall a', a <= a' -> calculate_points s a b <= calculate_points s a' b)
  /\ (forall b', b <= b' -> calculate_points s a b <= calculate_points s a b').
Proof.
  unfold calculate_points.
  split; [reflexivity|].
  split; [eexists; split; [reflexivity | lia]|].
  repeat split; intros; lia.
Qed.

Lemma calculate_points_spec_witness :
  calculate_points 3 1 5 = 55
  /\ calculate_points 3 1 5 <= calculate_points 4 1 5.
Proof.
  destruct (calculate_points_spec 3 1 5) as (E & _ & Ms & _); try lia.
  split.
  - rewrite E. reflexivity.
  - apply Ms. lia.
Defined.


(** ** Leaderboard listings *)




(** ** Stat upserts *)

Lemma names_id_bind (m : field id_value) (mid : Z) :
  names_id m mid -> not_id (get m) = false /\ bind_id (get m) = Key mid.
Proof.
  intros [(-> & Hne & Hfit) | (-> & ->)]; simpl; [|split; reflexivity].
  apply Z.eqb_neq in Hne. apply in_int64_fits in Hfit. rewrite Hne, Hfit.
  split; reflexivity.
Qed.

Lemma falsy_id_not (m : field id_value) : falsy_id m <-> not_id (get m) = true.
Proof.
  unfold falsy_id. split.
  - intros H. repeat (destruct H as [-> | H]; [reflexivity|]). subst. reflexivity.
  - destruct m as [| |[z|[|]| | | | | |]]; simpl; try discriminate; intros H; try tauto.
    apply Z.eqb_eq in H. subst. tauto.
Qed.

Lemma unbindable_id_bind (m : field id_value) :
  unbindable_id m -> not_id (get m) = false /\ bind_id (get m) = BindError.
Proof.
  intros [(z & -> & Hz) | [-> | ->]]; simpl; try (split; reflexivity).
  assert (in_int64 z = false) as E.
  { destruct (in_int64 z) eqn:E; [|reflexivity].
    apply in_int64_fits in E. contradiction. }
  rewrite E. split; [|reflexivity].
  apply Z.eqb_neq. intros ->. apply Hz. unfold fits. lia.
Qed.

(** An authenticated weekly upsert, case by case. *)
Lemma update_weekly_leaderboard_cases (now : clock) (m : field id_value)
    (s a b : field Z) (sess : session) (db : database) :
  has_user_id sess = true ->
  update_weekly_leaderboard now m s a b sess db
  = if not_id (get m)
    then (jsonify_error "member_id is required" None 400, sess, db)
    else
      match bind_id (get m) with
      | BindError => (internal_server_error, sess, db)
      | NoKey => (jsonify_error "Member not found" None 404, sess, db)
      | Key key =>
          match select_member_name key (members db) with
          | None => (jsonify_error "Member not found" None 404, sess, db)
          | Some name =>
              if bindable (get_default s 0) && bindable (get_default a 0)
                 && bindable (get_default b 0)
              then
                (jsonify_ok (PMessage "Weekly leaderboard updated"), sess,
                 log_action sess "UPDATE_WEEKLY" ("Updated weekly stats for " +++ name)
                   (set_weekly
                      (upsert_stat key (sent s) (sent a) (sent b)
                         (get_week_start now) (weekly_leaderboard db)) db))
              else (internal_server_error, sess, db)
          end
      end.
Proof.
  intros Hauth. unfold update_weekly_leaderboard, require_auth.
  rewrite Hauth. simpl. rewrite !get_default_sent. reflexivity.
Qed.

(** An authenticated monthly upsert, case by case. *)
Lemma update_monthly_leaderboard_cases (now : clock) (m : field id_value)
    (s a b : field Z) (sess : session) (db : database) :
  has_user_id sess = true ->
  update_monthly_leaderboard now m s a b sess db
  = if not_id (get m)
    then (jsonify_error "member_id is required" None 400, sess, db)
    else
      match bind_id (get m) with
      | BindError => (internal_server_error, sess, db)
      | NoKey => (jsonify_error "Member not found" None 404, sess, db)
      | Key key =>
          match select_member_name key (members db) with
          | None => (jsonify_error "Member not found" None 404, sess, db)
          | Some name =>
              if bindable (get_default s 0) && bindable (get_default a 0)
                 && bindable (get_default b 0)
              then
                (jsonify_ok (PMessage "Monthly leaderboard updated"), sess,
                 log_action sess "UPDATE_MONTHLY" ("Updated monthly stats for " +++ name)
                   (set_monthly
                      (upsert_stat key (sent s) (sent a) (sent b)
                         (get_month_year now) (monthly_leaderboard db)) db))
              else (internal_server_error, sess, db)
          end
      end.
Proof.
  intros Hauth. unfold update_monthly_leaderboard, require_auth.
  rewrite Hauth. simpl. rewrite !get_default_sent. reflexivity.
Qed.

Lemma bindable_counters (s a b : field Z) :
  bindable (get_default s 0) && bindable (get_default a 0) && bindable (get_default b 0)
  = true
  <-> fits_counter s /\ fits_counter a /\ fits_counter b.
Proof.
  rewrite !andb_true_iff, !bindable_sent. tauto.
Qed.

(** The successful path of an authenticated upsert. *)
Lemma update_weekly_leaderboard_ok (now : clock) (m : field id_value) (mid : Z)
    (s a b : field Z) (sess : session) (db : database) :
  has_user_id sess = true ->
  names_id m mid ->
  (exists x, In x (members db) /\ m_id x = mid) ->
  fits_counter s -> fits_counter a -> fits_counter b ->
  exists name,
    update_weekly_leaderboard now m s a b sess db
    = (jsonify_ok (PMessage "Weekly leaderboard updated"), sess,
       log_action sess "UPDATE_WEEKLY" ("Updated weekly stats for " +++ name)
         (set_weekly
            (upsert_stat mid (sent s) (sent a) (sent b)
               (get_week_start now) (weekly_leaderboard db)) db)).
Proof.
  intros Hauth Hm Hx Hs Ha Hb.
  rewrite (update_weekly_leaderboard_cases now m s a b sess db Hauth).
  destruct (names_id_bind m mid Hm) as [-> ->].
  destruct (select_member_name_some mid (members db) Hx) as (name & ->).
  rewrite (proj2 (bindable_counters s a b)) by tauto.
  exists name. reflexivity.
Qed.

Lemma update_monthly_leaderboard_ok (now : clock) (m : field id_value) (mid : Z)
    (s a b : field Z) (sess : session) (db : database) :
  has_user_id sess = true ->
  names_id m mid ->
  (exists x, In x (members db) /\ m_id x = mid) ->
  fits_counter s -> fits_counter a -> fits_counter b ->
  exists name,
    update_monthly_leaderboard now m s a b sess db
    = (jsonify_ok (PMessage "Monthly leaderboard updated"), sess,
       log_action sess "UPDATE_MONTHLY" ("Updated monthly stats for " +++ name)
         (set_monthly
            (upsert_stat mid (sent s) (sent a) (sent b)
               (get_month_year now) (monthly_leaderboard db)) db)).
Proof.
  intros Hauth Hm Hx Hs Ha Hb.
  rewrite (update_monthly_leaderboard_cases now m s a b sess db Hauth).
  destruct (names_id_bind m mid Hm) as [-> ->].
  destruct (select_member_name_some mid (members db) Hx) as (name & ->).
  rewrite (proj2 (bindable_counters s a b)) by tauto.
  exists name. reflexivity.
Qed.



(** Two upserts in a row on a table with unique keys. *)

Lemma one_row_upsert (mid : Z) (s a b : option Z) (p : string) (rows : list stat_row) :
  NoDup (map stat_key rows) ->
  one_row (upsert_stat mid s a b p rows) mid p (new_stat mid s a b p).
Proof.
  intros Hnd. pose proof (upsert_stat_filter mid s a b p rows Hnd) as Hf.
  assert (Hin : forall r, In r (upsert_stat mid s a b p rows) ->
                          member_id r = mid -> period r = p ->
                          In r (filter (same_key mid p) (upsert_stat mid s a b p rows))).
  { intros r Hr Hid Hp. apply filter_In. split; [exact Hr|].
    apply same_key_spec. unfold stat_key. rewrite Hid, Hp. reflexivity. }
  split; [|split].
  - assert (In (new_stat mid s a b p)
              (filter (same_key mid p) (upsert_stat mid s a b p rows))) as H
        by (rewrite Hf; left; reflexivity).
    apply filter_In in H. tauto.
  - intros r Hr Hid Hp. specialize (Hin r Hr Hid Hp). rewrite Hf in Hin.
    destruct Hin as [<- | []]. reflexivity.
  - apply upsert_stat_NoDup. exact Hnd.
Qed.

Lemma upsert_stat_In_other (mid : Z) (s a b : option Z) (p : string)
    (rows : list stat_row) (r : stat_row) :
  (member_id r, period r) <> (mid, p) ->
  (In r (upsert_stat mid s a b p rows) <-> In r rows).
Proof.
  intros Hne.
  pose proof (upsert_stat_other mid (member_id r) s a b p (period r) rows Hne) as Hf.
  assert (Hown : same_key (member_id r) (period r) r = true)
    by (apply same_key_spec; reflexivity).
  split; intros Hin.
  - assert (In r (filter (same_key (member_id r) (period r))
                    (upsert_stat mid s a b p rows))) as H
        by (apply filter_In; split; assumption).
    rewrite Hf in H. apply filter_In in H. tauto.
  - assert (In r (filter (same_key (member_id r) (period r)) rows)) as H
        by (apply filter_In; split; assumption).
    rewrite <- Hf in H. apply filter_In in H. tauto.
Qed.



(** ** The authentication gate *)

(** C4: without ['user_id'] in the session, [require_auth] answers 401 with
    the code AUTH_REQUIRED whatever the wrapped operation is (so the
    operation is not run), and every protected route leaves the session and
    the whole database, members and stat tables included, as they were. *)
Theorem require_auth_rejects (hash_password : string -> string) (now : clock)
    (r : request) (f : handler) (sess : session) (db : database) :
  has_user_id sess = false ->
  require_auth f sess db = (auth_required, sess, db)
  /\ (protected r = true -> app hash_password now r sess db = (auth_required, sess, db))
  /\ status auth_required = 401
  /\ success auth_required = false
  /\ body auth_required = PError "Authentication required" (Some "AUTH_REQUIRED").
Proof.
  intros Hno.
  assert (Hgate : forall g, require_auth g sess db = (auth_required, sess, db)).
  { intros g. unfold require_auth. rewrite Hno. reflexivity. }
  split; [apply Hgate|].
  split; [|repeat split].
  destruct r; simpl; try discriminate; intros _; apply Hgate.
Qed.

Lemma require_auth_rejects_witness :
  has_user_id session_clear = false
  /\ app sample_digest sample_clock (DeleteMember 1) session_clear sample_db
     = (auth_required, session_clear, sample_db)
  /\ app sample_digest sample_clock (AddMember (Val "Carol"%string) Absent)
       session_clear sample_db
     = (auth_required, session_clear, sample_db).
Proof.
  split; [reflexivity|]. split.
  - apply (require_auth_rejects sample_digest sample_clock (DeleteMember 1)
             (fun sess db => (auth_required, sess, db)) session_clear sample_db);
      reflexivity.
  - reflexivity.
Defined.

(** ** Deleting a member *)

Lemma leaderboard_data_ids (ms : list member) (rows : list stat_row) (p : string)
    (e : entry) :
  In e (leaderboard_data ms rows p) -> exists m, In m ms /\ entry_id e = m_id m.
Proof.
  unfold leaderboard_data. intros He.
  apply in_map_iff in He. destruct He as ([m w] & <- & Hjr).
  apply (Permutation_in _ (order_by_desc_perm order_key _)) in Hjr.
  unfold left_join in Hjr. apply in_flat_map in Hjr.
  destruct Hjr as (m' & Hm' & Hin).
  exists m'. split; [exact Hm'|]. simpl.
  destruct (filter (same_key (m_id m') p) rows) as [|w0 ws].
  - destruct Hin as [[= <- <-] | []]. reflexivity.
  - apply in_map_iff in Hin. destruct Hin as (w1 & [= <- <-] & _). reflexivity.
Qed.

(** C5, as the code has it: for an authenticated caller and an id that fits
    SQLite's 64-bit integers, [delete_member] answers 404 "Member not found"
    and changes nothing when no member has the id; when a member has it, the
    call succeeds (with or without stat rows of that member) and the one
    resulting database has lost every weekly and monthly stat row of the
    member and the member row, all other rows being kept, so that the
    leaderboard listings no longer contain the id.  An id beyond 64 bits
    makes the lookup raise: the answer is 500 and nothing changes. *)
Theorem delete_member_spec (mid : Z) (sess : session) (db : database) :
  has_user_id sess = true ->
  (~ fits mid -> delete_member mid sess db = (internal_server_error, sess, db))
  /\ (fits mid ->
      (forall m, In m (members db) -> m_id m <> mid) ->
      delete_member mid sess db = (jsonify_error "Member not found" None 404, sess, db))
  /\ (fits mid ->
      (exists m, In m (members db) /\ m_id m = mid) ->
      exists name db',
        delete_member mid sess db
        = (jsonify_ok (PMessage ("Member " +++ name +++ " deleted")), sess, db')
        /\ (exists m, In m (members db) /\ m_id m = mid /\ m_name m = name)
        /\ weekly_leaderboard db'
           = filter (fun r => negb (member_id r =? mid)) (weekly_leaderboard db)
        /\ monthly_leaderboard db'
           = filter (fun r => negb (member_id r =? mid)) (monthly_leaderboard db)
        /\ members db' = filter (fun m => negb (m_id m =? mid)) (members db)
        /\ (forall r, In r (weekly_leaderboard db') -> member_id r <> mid)
        /\ (forall r, In r (monthly_leaderboard db') -> member_id r <> mid)
        /\ (forall m, In m (members db') -> m_id m <> mid)
        /\ (forall now sess' e,
              In e (listing_of (get_weekly_leaderboard now) sess' db')
              \/ In e (listing_of (get_monthly_leaderboard now) sess' db') ->
              entry_id e <> mid)).
Proof.
  intros Hauth.
  assert (Hfilter : forall (A : Type) (key : A -> Z) (l : list A) (x : A),
             In x (filter (fun y => negb (key y =? mid)) l) -> key x <> mid).
  { intros A key l x Hin. apply filter_In in Hin. destruct Hin as [_ Hne].
    apply negb_true_iff, Z.eqb_neq in Hne. exact Hne. }
  unfold delete_member, require_auth. rewrite Hauth. simpl.
  split.
  { intros Hbig. destruct (in_int64 mid) eqn:E; [|reflexivity].
    apply in_int64_fits in E. contradiction. }
  split.
  - intros Hfit Hnone. apply in_int64_fits in Hfit. rewrite Hfit. simpl.
    rewrite (select_member_name_none mid (members db) Hnone). reflexivity.
  - intros Hfit Hsome. apply in_int64_fits in Hfit. rewrite Hfit. simpl.
    destruct (select_member_name_some mid (members db) Hsome) as (name & Hsel).
    rewrite Hsel.
    eexists. eexists. split; [reflexivity|]. simpl.
    split; [apply select_member_name_in; exact Hsel|].
    repeat (split; [reflexivity|]).
    split; [apply Hfilter|]. split; [apply Hfilter|].
    assert (Hms : forall m, In m (delete_member_row mid (members db)) -> m_id m <> mid)
      by (apply Hfilter).
    split; [exact Hms|].
    intros now sess' e [He | He]; unfold listing_of in He; simpl in He;
      apply leaderboard_data_ids in He; destruct He as (m & Hm & ->);
      apply Hms; exact Hm.
Qed.

Lemma delete_member_spec_witness :
  has_user_id admin_session = true
  /\ (exists name db',
         delete_member 2 admin_session sample_db
         = (jsonify_ok (PMessage ("Member " +++ name +++ " deleted")), admin_session, db')
         /\ members db' = [alice]
         /\ weekly_leaderboard db'
            = [{| member_id := 1; sessions_attended := Some 3;
                  assessments_submitted := Some 1; bonus_points := Some 5;
                  period := "2024-01-01" |};
               {| member_id := 1; sessions_attended := Some 9;
                  assessments_submitted := Some 9; bonus_points := Some 9;
                  period := "2023-12-25" |}])
  /\ delete_member 7 admin_session sample_db
     = (jsonify_error "Member not found" None 404, admin_session, sample_db).
Proof.
  split; [reflexivity|].
  destruct (delete_member_spec 2 admin_session sample_db eq_refl) as (_ & _ & Hdel).
  destruct (delete_member_spec 7 admin_session sample_db eq_refl) as (_ & Hnone & _).
  split.
  - destruct Hdel as (name & db' & Hcall & _ & Hweekly & _ & Hmembers & _).
    + unfold fits. simpl. lia.
    + exists bob. split; [right; left; reflexivity | reflexivity].
    + exists name, db'. split; [exact Hcall|].
      split; [rewrite Hmembers | rewrite Hweekly]; reflexivity.
  - apply Hnone; [unfold fits; simpl; lia|].
    intros m [<- | [<- | []]]; discriminate.
Defined.

(** The counterexample to C5 as stated: no member has the id 2^63, which
    the route accepts, and the answer is 500, not the 404 "Member not
    found". *)
Lemma delete_member_huge_id_is_500 :
  (forall m, In m (members sample_db) -> m_id m <> 2 ^ 63)
  /\ delete_member (2 ^ 63) admin_session sample_db
     = (internal_server_error, admin_session, sample_db)
  /\ status (fst (fst (delete_member (2 ^ 63) admin_session sample_db))) <> 404.
Proof.
  split; [intros m [<- | [<- | []]]; discriminate|].
  split; [reflexivity | discriminate].
Qed.

(** ** Login *)





(** ** Errors of the stat upserts *)

Lemma upsert_outcome_cases (table : database -> list stat_row) (p : string)
    (m : field id_value) (s a b : field Z) (sess : session) (db : database)
    (ok : Z -> string -> response * session * database) :
  (forall key name,
      success (fst (fst (ok key name))) = true
      /\ status (fst (fst (ok key name))) = 200
      /\ snd (fst (ok key name)) = sess
      /\ table (snd (ok key name))
         = upsert_stat key (sent s) (sent a) (sent b) p (table db)
      /\ members (snd (ok key name)) = members db) ->
  NoDup (map stat_key (table db)) ->
  upsert_outcome table p m s a b sess db
    (if not_id (get m)
     then (jsonify_error "member_id is required" None 400, sess, db)
     else
       match bind_id (get m) with
       | BindError => (internal_server_error, sess, db)
       | NoKey => (jsonify_error "Member not found" None 404, sess, db)
       | Key key =>
           match select_member_name key (members db) with
           | None => (jsonify_error "Member not found" None 404, sess, db)
           | Some name =>
               if bindable (get_default s 0) && bindable (get_default a 0)
                  && bindable (get_default b 0)
               then ok key name
               else (internal_server_error, sess, db)
           end
       end).
Proof.
  intros Hok Hkeys. unfold upsert_outcome.
  split.
  { intros Hfalsy. apply falsy_id_not in Hfalsy. rewrite Hfalsy. reflexivity. }
  split.
  { destruct (not_id (get m)) eqn:Enot; [intros _; apply falsy_id_not; exact Enot|].
    destruct (bind_id (get m)) as [| |key]; simpl; try discriminate.
    destruct (select_member_name key (members db)) as [name|]; simpl; try discriminate.
    destruct (bindable (get_default s 0) && bindable (get_default a 0)
              && bindable (get_default b 0)); simpl; try discriminate.
    destruct (Hok key name) as (_ & Hstatus & _). rewrite Hstatus. discriminate. }
  split.
  { intros Hbad. destruct (unbindable_id_bind _ Hbad) as [-> ->]. reflexivity. }
  split.
  { intros mid Hm Hnone. destruct (names_id_bind _ _ Hm) as [-> ->].
    rewrite (select_member_name_none _ _ Hnone). reflexivity. }
  split.
  - intros mid Hm Hsome Hs Ha Hb. destruct (names_id_bind _ _ Hm) as [-> ->].
    destruct (select_member_name_some _ _ Hsome) as (name & ->).
    rewrite (proj2 (bindable_counters s a b)) by tauto.
    destruct (Hok mid name) as (Hsuccess & Hstatus & Hsess & Htable & Hmembers).
    repeat (split; [assumption|]). rewrite Htable.
    split; [apply one_row_upsert; exact Hkeys|].
    split; [intros r Hr; apply upsert_stat_In_other; exact Hr | exact Hmembers].
  - intros mid Hm Hsome Hbad. destruct (names_id_bind _ _ Hm) as [-> ->].
    destruct (select_member_name_some _ _ Hsome) as (name & ->).
    destruct (bindable (get_default s 0) && bindable (get_default a 0)
              && bindable (get_default b 0)) eqn:Ebind; [|reflexivity].
    apply bindable_counters in Ebind. contradiction.
Qed.

(** C7, as the code has it: for an authenticated caller, the weekly and the
    monthly upsert answer 400 "member_id is required" exactly when the
    [member_id] key is missing or holds a value that Python takes for false
    (null, false, 0, 0.0, the empty string, array or object); they answer
    404 "Member not found" when [member_id] stands for an id of no member;
    otherwise, when the counters fit 64-bit integers, they succeed and leave
    exactly one row for (member_id, current period), holding the given
    values (0 for an omitted counter, NULL for null), with every other key
    of the table and the members untouched.  A [member_id] or a counter
    that SQLite cannot take is answered with 500 and changes nothing. *)
Theorem update_leaderboard_outcome (now : clock) (m : field id_value)
    (s a b : field Z) (sess : session) (db : database) :
  has_user_id sess = true ->
  schema_ok db ->
  upsert_outcome weekly_leaderboard (get_week_start now) m s a b sess db
    (update_weekly_leaderboard now m s a b sess db)
  /\ upsert_outcome monthly_leaderboard (get_month_year now) m s a b sess db
       (update_monthly_leaderboard now m s a b sess db).
Proof.
  intros Hauth (_ & _ & Hweekly & Hmonthly).
  split.
  - rewrite (update_weekly_leaderboard_cases now m s a b sess db Hauth).
    apply (upsert_outcome_cases weekly_leaderboard); [|exact Hweekly].
    intros key name. repeat split; reflexivity.
  - rewrite (update_monthly_leaderboard_cases now m s a b sess db Hauth).
    apply (upsert_outcome_cases monthly_leaderboard); [|exact Hmonthly].
    intros key name. repeat split; reflexivity.
Qed.

Lemma update_leaderboard_outcome_witness :
  has_user_id admin_session = true
  /\ schema_ok sample_db
  /\ update_weekly_leaderboard sample_clock (Val IdEmptyString) (Val 1) (Val 1) (Val 1)
       admin_session sample_db
     = (jsonify_error "member_id is required" None 400, admin_session, sample_db)
  /\ update_monthly_leaderboard sample_clock (Val (IdInt 9)) (Val 1) (Val 1) (Val 1)
       admin_session sample_db
     = (jsonify_error "Member not found" None 404, admin_session, sample_db)
  /\ one_row
       (monthly_leaderboard
          (snd (update_monthly_leaderboard sample_clock (Val (IdBool true)) (Val 6)
                  Absent Null admin_session sample_db)))
       1 "2024-01" (new_stat 1 (Some 6) (Some 0) None "2024-01")
  /\ update_weekly_leaderboard sample_clock (Val (IdInt 1)) (Val (2 ^ 63)) Absent Absent
       admin_session sample_db
     = (internal_server_error, admin_session, sample_db).
Proof.
  split; [reflexivity|]. split; [exact sample_db_schema_ok|].
  split; [|split; [|split]].
  - apply (proj1 (update_leaderboard_outcome sample_clock (Val IdEmptyString) (Val 1)
                    (Val 1) (Val 1) admin_session sample_db eq_refl sample_db_schema_ok)).
    unfold falsy_id. tauto.
  - destruct (proj2 (update_leaderboard_outcome sample_clock (Val (IdInt 9)) (Val 1)
                       (Val 1) (Val 1) admin_session sample_db eq_refl
                       sample_db_schema_ok))
      as (_ & _ & _ & Hnot_found & _).
    apply (Hnot_found 9).
    + left. split; [reflexivity|]. split; [discriminate | unfold fits; simpl; lia].
    + intros x [<- | [<- | []]]; discriminate.
  - destruct (proj2 (update_leaderboard_outcome sample_clock (Val (IdBool true)) (Val 6)
                       Absent Null admin_session sample_db eq_refl sample_db_schema_ok))
      as (_ & _ & _ & _ & Hok & _).
    destruct (Hok 1) as (_ & _ & _ & Hrow & _); try exact Hrow.
    + right. split; reflexivity.
    + exists alice. split; [left; reflexivity | reflexivity].
    + unfold fits_counter, fits. simpl. lia.
    + exact I.
    + exact I.
  - destruct (proj1 (update_leaderboard_outcome sample_clock (Val (IdInt 1))
                       (Val (2 ^ 63)) Absent Absent admin_session sample_db eq_refl
                       sample_db_schema_ok))
      as (_ & _ & _ & _ & _ & Hoverflow).
    apply (Hoverflow 1).
    + left. split; [reflexivity|]. split; [discriminate | unfold fits; simpl; lia].
    + exists alice. split; [left; reflexivity | reflexivity].
    + unfold fits_counter, fits. simpl. lia.
Defined.

(** The counterexample to C7 as stated: [member_id] is present in the call,
    with the value 0, and the answer is the 400 of a missing [member_id]. *)
Lemma update_member_id_zero_is_400 :
  Val (IdInt 0) <> @Absent id_value
  /\ update_weekly_leaderboard sample_clock (Val (IdInt 0)) (Val 3) (Val 1) (Val 5)
       admin_session sample_db
     = (jsonify_error "member_id is required" None 400, admin_session, sample_db)
  /\ update_monthly_leaderboard sample_clock (Val (IdInt 0)) (Val 3) (Val 1) (Val 5)
       admin_session sample_db
     = (jsonify_error "member_id is required" None 400, admin_session, sample_db).
Proof.
  split; [discriminate|]. split; reflexivity.
Qed.

(** ** Scores in the listings *)

(** C8, as the code has it: in every state of the store, an entry of the
    weekly (resp. monthly) listing shows a stored member with the counters
    of a weekly (resp. monthly) row of that member for the current period,
    a NULL counter counting as 0, or with zeros and a total of 0 when the
    member has no row for the period; the total is [calculate_points] of
    the three counters shown and of nothing else, and it is non-negative
    whenever the three counters are. *)
Theorem leaderboard_score (now : clock) (sess : session) (db : database) (e : entry) :
  (In e (listing_of (get_weekly_leaderboard now) sess db) ->
   exists m, In m (members db)
             /\ shows (weekly_leaderboard db) (get_week_start now) m e)
  /\ (In e (listing_of (get_monthly_leaderboard now) sess db) ->
      exists m, In m (members db)
                /\ shows (monthly_leaderboard db) (get_month_year now) m e)
  /\ (In e (listing_of (get_weekly_leaderboard now) sess db)
      \/ In e (listing_of (get_monthly_leaderboard now) sess db) ->
      totalPoints e
      = calculate_points (sessionsAttended e) (assessmentsSubmitted e) (bonusPoints e)
      /\ (0 <= sessionsAttended e -> 0 <= assessmentsSubmitted e -> 0 <= bonusPoints e ->
          0 <= totalPoints e)).
Proof.
  assert (Hw : In e (listing_of (get_weekly_leaderboard now) sess db) ->
               exists m, In m (members db)
                         /\ shows (weekly_leaderboard db) (get_week_start now) m e)
    by (unfold listing_of; simpl; apply leaderboard_data_shows).
  assert (Hm : In e (listing_of (get_monthly_leaderboard now) sess db) ->
               exists m, In m (members db)
                         /\ shows (monthly_leaderboard db) (get_month_year now) m e)
    by (unfold listing_of; simpl; apply leaderboard_data_shows).
  split; [exact Hw|]. split; [exact Hm|].
  intros He.
  assert (Htotal : totalPoints e
                   = calculate_points (sessionsAttended e) (assessmentsSubmitted e)
                       (bonusPoints e)).
  { destruct He as [He | He]; [apply Hw in He | apply Hm in He];
      destruct He as (m & _ & Hshows); apply Hshows. }
  split; [exact Htotal|].
  intros H1 H2 H3. rewrite Htotal. unfold calculate_points. lia.
Qed.

Lemma leaderboard_score_witness :
  exists e,
    In e (listing_of (get_weekly_leaderboard sample_clock) session_clear sample_db)
    /\ entry_id e = 2
    /\ shows (weekly_leaderboard sample_db) "2024-01-01" bob e
    /\ sessionsAttended e = 1 /\ assessmentsSubmitted e = 0 /\ bonusPoints e = 2
    /\ 0 <= totalPoints e.
Proof.
  eexists. split; [right; left; reflexivity|]. split; [reflexivity|].
  match goal with
  | |- shows _ _ _ ?e /\ _ =>
      destruct (leaderboard_score sample_clock session_clear sample_db e)
        as (Hweekly & _ & Hscore)
  end.
  split.
  - destruct Hweekly as (m & Hm & Hshows); [right; left; reflexivity|].
    destruct Hm as [<- | [<- | []]]; [|exact Hshows].
    destruct Hshows as (Hid & _). discriminate.
  - repeat (split; [reflexivity|]).
    apply Hscore; [left; right; left; reflexivity | simpl; lia ..].
Defined.

(** The counterexample to C8 as stated: after the administrator has logged
    in, added Alice and recorded -1 weekly sessions for her, the weekly
    listing shows her with a total of -10. *)
Lemma negative_score_reachable :
  reachable sample_digest (fst negative_state) (snd negative_state)
  /\ map totalPoints
       (listing_of (get_weekly_leaderboard sample_clock) (fst negative_state)
          (snd negative_state)) = [-10]
  /\ ~ (forall e,
           In e (listing_of (get_weekly_leaderboard sample_clock) (fst negative_state)
                   (snd negative_state)) -> 0 <= totalPoints e).
Proof.
  split; [apply run_reachable, reach_init|].
  split; [reflexivity|].
  intros H.
  specialize (H _ (or_introl eq_refl)). vm_compute in H. apply H. reflexivity.
Qed.

(** ** Adding a member *)

Lemma replace_space_plus_chars (s : string) :
  list_ascii_of_string (replace_space_plus s)
  = map (fun c => if Ascii.eqb c " " then "+"%char else c) (list_ascii_of_string s).
Proof.
  induction s as [|c s IH]; simpl; [reflexivity|]. rewrite IH. reflexivity.
Qed.

Lemma replace_space_plus_url_encode (s : string) :
  string_forallb (fun c => unreserved c || Ascii.eqb c " ") s = true ->
  replace_space_plus s = spec_url_encode s.
Proof.
  induction s as [|c s IH]; simpl; [reflexivity|].
  intros H. apply andb_true_iff in H. destruct H as [Hc Hs].
  rewrite (IH Hs). unfold spec_url_encode_char.
  destruct (Ascii.eqb c " ") eqn:Esp; [reflexivity|].
  rewrite orb_false_r in Hc. rewrite Hc. reflexivity.
Qed.

Lemma insert_member_fresh (name : string) (avatar : option string) (db : database) :
  (forall m, In m (members db) -> m_name m <> name) ->
  exists rowid,
    insert_member name avatar db
    = Some (set_members
              (members db ++ [{| m_id := rowid; m_name := name; m_avatar := avatar |}])
              rowid db, rowid).
Proof.
  intros Hfresh. unfold insert_member.
  assert (existsb (fun m => (m_name m =? name)%string) (members db) = false) as ->.
  { destruct (existsb _ (members db)) eqn:E; [|reflexivity].
    apply existsb_exists in E. destruct E as (m & Hin & E).
    apply String.eqb_eq in E. exfalso. exact (Hfresh m Hin E). }
  eexists. reflexivity.
Qed.

(** C9, as the code has it: when an authenticated caller adds a member with
    a new, non-empty name and no [avatar] key, the answer and the stored row
    carry the default avatar URL, which is a function of the name alone: a
    fixed prefix, the name with every space replaced by "+" and every other
    character unchanged, and the fixed parameters for background, colour
    and size.  It is the URL-encoded name only for names made of letters,
    digits, "-", "_", ".", "~" and spaces. *)
Theorem add_member_default_avatar (name : string) (sess : session) (db : database) :
  has_user_id sess = true ->
  name <> "" ->
  (forall m, In m (members db) -> m_name m <> name) ->
  exists rowid db',
    add_member (Val name) Absent sess db
    = (jsonify_ok (PMember rowid name (Some (default_avatar name))), sess, db')
    /\ members db'
       = members db
         ++ [{| m_id := rowid; m_name := name; m_avatar := Some (default_avatar name) |}]
    /\ default_avatar name
       = "https://ui-avatars.com/api/?name=" +++ replace_space_plus name
           +++ "&background=ff642c&color=fff&size=200"
    /\ list_ascii_of_string (replace_space_plus name)
       = map (fun c => if Ascii.eqb c " " then "+"%char else c)
           (list_ascii_of_string name)
    /\ (string_forallb (fun c => unreserved c || Ascii.eqb c " ") name = true ->
        default_avatar name = spec_default_avatar name).
Proof.
  intros Hauth Hname Hfresh.
  destruct (insert_member_fresh name (Some (default_avatar name)) db Hfresh)
    as (rowid & Hins).
  unfold add_member, require_auth. rewrite Hauth. simpl.
  apply String.eqb_neq in Hname. rewrite Hname. rewrite Hins.
  eexists. eexists. split; [reflexivity|]. simpl.
  split; [reflexivity|]. split; [reflexivity|].
  split; [apply replace_space_plus_chars|].
  intros Hsafe. unfold default_avatar, spec_default_avatar.
  rewrite (replace_space_plus_url_encode name Hsafe). reflexivity.
Qed.

Lemma add_member_default_avatar_witness :
  exists rowid db',
    add_member (Val "Alice") Absent admin_session (init_db sample_digest empty_db)
    = (jsonify_ok
         (PMember rowid "Alice"
            (Some "https://ui-avatars.com/api/?name=Alice&background=ff642c&color=fff&size=200")),
       admin_session, db').
Proof.
  destruct (add_member_default_avatar "Alice" admin_session
              (init_db sample_digest empty_db) eq_refl)
    as (rowid & db' & Hcall & _).
  - discriminate.
  - intros m [].
  - exists rowid, db'. exact Hcall.
Defined.

(** The counterexample to C9 as stated: for the name "A&B" the default
    avatar carries the ampersand as it is, where the URL-encoded name is
    "A%26B". *)
Lemma default_avatar_not_url_encoded :
  fst (fst (add_member (Val "A&B") Absent admin_session sample_db))
  = jsonify_ok
      (PMember 3 "A&B"
         (Some "https://ui-avatars.com/api/?name=A&B&background=ff642c&color=fff&size=200"))
  /\ spec_default_avatar "A&B"
     = "https://ui-avatars.com/api/?name=A%26B&background=ff642c&color=fff&size=200"
  /\ default_avatar "A&B" <> spec_default_avatar "A&B".
Proof.
  split; [reflexivity|]. split; [reflexivity | discriminate].
Qed.




(** * Further properties of the program *)

(** ** The start of the week *)

(** The date returned by [get_week_start] is the Monday on or before
    today: it is the one date that is a Monday and lies at most six days
    before today, and it is a valid date whenever today is. *)
Theorem get_week_start_date_monday (today monday : Z) :
  (get_week_start_date today = monday
   <-> weekday monday = 0 /\ monday <= today <= monday + 6)
  /\ (1 <= today -> 1 <= get_week_start_date today <= today).
Proof.
  unfold get_week_start_date, weekday.
  pose proof (Z.div_mod (today + 6) 7 ltac:(lia)) as Ht.
  pose proof (Z.mod_pos_bound (today + 6) 7 ltac:(lia)) as Hr.
  pose proof (Z.div_mod (monday + 6) 7 ltac:(lia)) as Hm.
  pose proof (Z.mod_pos_bound (monday + 6) 7 ltac:(lia)) as Hmr.
  split; [split|].
  - intros <-. split; [|lia].
    replace (today - (today + 6) mod 7 + 6) with (0 + (today + 6) / 7 * 7) by lia.
    rewrite Z.mod_add by lia. reflexivity.
  - intros [H0 Hrange]. rewrite H0 in Hm.
    assert ((today + 6) mod 7 = today - monday) as ->; [|lia].
    symmetry. apply (Z.mod_unique_pos _ _ ((monday + 6) / 7)); lia.
  - intros H1. split; [|lia].
    assert (0 < (today + 6) / 7) by (apply Z.div_str_pos; lia). lia.
Qed.

Lemma get_week_start_date_monday_witness :
  get_week_start_date 738889 = 738886 /\ 1 <= get_week_start_date 3 <= 3.
Proof.
  split.
  - apply (proj1 (get_week_start_date_monday 738889 738886)).
    split; [reflexivity | lia].
  - apply (proj2 (get_week_start_date_monday 3 0)). lia.
Defined.
(** ** Listing the members *)

Lemma ascii_compare_trans (a b c : ascii) (o : comparison) :
  Ascii.compare a b = o -> Ascii.compare b c = o -> Ascii.compare a c = o.
Proof.
  unfold Ascii.compare. intros H1 H2. destruct o.
  - apply N.compare_eq_iff in H1, H2. apply N.compare_eq_iff. congruence.
  - exact (N.lt_trans _ _ _ H1 H2).
  - rewrite N.compare_gt_iff in H1, H2 |- *. exact (N.lt_trans _ _ _ H2 H1).
Qed.

Lemma string_leb_trans (s1 s2 s3 : string) :
  String.leb s1 s2 = true -> String.leb s2 s3 = true -> String.leb s1 s3 = true.
Proof.
  unfold String.leb. revert s2 s3.
  induction s1 as [|a s1 IH]; intros [|b s2] [|c s3]; simpl; try congruence.
  destruct (Ascii.compare a b) eqn:Eab; destruct (Ascii.compare b c) eqn:Ebc;
    try congruence.
  - rewrite (ascii_compare_trans a b c Eq Eab Ebc). apply IH.
  - apply Ascii.compare_eq_iff in Eab. subst. rewrite Ebc. reflexivity.
  - apply Ascii.compare_eq_iff in Ebc. subst. rewrite Eab. reflexivity.
  - rewrite (ascii_compare_trans a b c Lt Eab Ebc). reflexivity.
Qed.

Lemma insert_by_name_perm (x : member) (l : list member) :
  Permutation (insert_by_name x l) (x :: l).
Proof.
  induction l as [|y l IH]; simpl.
  - apply Permutation_refl.
  - destruct (String.leb (m_name x) (m_name y)).
    + apply Permutation_refl.
    + eapply perm_trans; [apply perm_skip, IH | apply perm_swap].
Qed.

Lemma order_by_name_perm (l : list member) : Permutation (order_by_name l) l.
Proof.
  induction l as [|x l IH]; simpl.
  - constructor.
  - eapply perm_trans; [apply insert_by_name_perm | apply perm_skip, IH].
Qed.

Lemma insert_by_name_sorted (x : member) (l : list member) :
  StronglySorted (fun a b => String.leb (m_name a) (m_name b) = true) l ->
  StronglySorted (fun a b => String.leb (m_name a) (m_name b) = true)
    (insert_by_name x l).
Proof.
  induction 1 as [|y l Hs IH Hy]; simpl.
  - constructor; constructor.
  - destruct (String.leb (m_name x) (m_name y)) eqn:E.
    + constructor; [constructor; assumption|].
      constructor; [exact E|].
      eapply Forall_impl; [|exact Hy]. simpl. intros z Hz.
      eapply string_leb_trans; eassumption.
    + constructor; [exact IH|].
      eapply Permutation_Forall.
      * apply Permutation_sym, insert_by_name_perm.
      * constructor; [|exact Hy].
        destruct (String.leb_total (m_name x) (m_name y)) as [H | H];
          [congruence | exact H].
Qed.

Lemma order_by_name_sorted (l : list member) :
  StronglySorted (fun a b => String.leb (m_name a) (m_name b) = true) (order_by_name l).
Proof.
  induction l as [|x l IH]; simpl.
  - constructor.
  - apply insert_by_name_sorted, IH.
Qed.

(** GET /api/members needs no session and changes nothing; its data lists
    every stored member exactly once, in ascending byte order of the names,
    and strictly ascending when the names are unique. *)
Theorem get_members_sorted (sess : session) (db : database) :
  exists data,
    get_members sess db
    = ({| members_success := true; members_data := data; members_status := 200 |},
       sess, db)
    /\ Permutation data (members db)
    /\ StronglySorted (fun a b => String.leb (m_name a) (m_name b) = true) data
    /\ (NoDup (map m_name (members db)) ->
        StronglySorted (fun a b => String.ltb (m_name a) (m_name b) = true) data).
Proof.
  eexists. split; [reflexivity|].
  assert (Hperm : Permutation (order_by_name (members db)) (members db))
    by apply order_by_name_perm.
  pose proof (order_by_name_sorted (members db)) as Hsorted.
  split; [exact Hperm|]. split; [exact Hsorted|].
  intros Hnd.
  assert (Hnd' : NoDup (map m_name (order_by_name (members db)))).
  { eapply Permutation_NoDup; [|exact Hnd].
    apply Permutation_map, Permutation_sym, Hperm. }
  clear Hperm. induction Hsorted as [|x l Hs IH Hx]; [constructor|].
  simpl in Hnd'. inversion Hnd' as [|k ks Hnotin Hnd'']; subst.
  constructor; [apply IH; exact Hnd''|].
  rewrite Forall_forall in Hx |- *. intros y Hy.
  specialize (Hx y Hy). unfold String.leb in Hx. unfold String.ltb.
  destruct (String.compare (m_name x) (m_name y)) eqn:E; try congruence.
  apply String.compare_eq_iff in E. exfalso. apply Hnotin.
  rewrite E. apply in_map. exact Hy.
Qed.

Lemma get_members_sorted_witness :
  exists data,
    get_members session_clear sample_db
    = ({| members_success := true; members_data := data; members_status := 200 |},
       session_clear, sample_db)
    /\ StronglySorted (fun a b => String.ltb (m_name a) (m_name b) = true) data.
Proof.
  destruct (get_members_sorted session_clear sample_db)
    as (data & Hcall & _ & _ & Hstrict).
  exists data. split; [exact Hcall|].
  apply Hstrict. apply sample_db_schema_ok.
Defined.

(** ** What a request can change *)

(** A request that is answered with [success: false], and any request to a
    read-only route, leaves the session and the whole database as they
    were. *)
Theorem app_failure_changes_nothing (hash_password : string -> string) (now : clock)
    (r : request) (sess : session) (db : database) :
  success (fst (fst (app hash_password now r sess db))) = false \/ read_only r = true ->
  snd (fst (app hash_password now r sess db)) = sess
  /\ snd (app hash_password now r sess db) = db.
Proof.
  destruct r; unfold_handlers; handler_cases; simpl;
    intros [H | H]; try discriminate; split; reflexivity.
Qed.

Lemma app_failure_changes_nothing_witness :
  snd (app sample_digest sample_clock (DeleteWeeklyEntry 2) admin_session
         (set_weekly [] sample_db))
  = set_weekly [] sample_db.
Proof.
  apply (app_failure_changes_nothing sample_digest sample_clock (DeleteWeeklyEntry 2)
           admin_session (set_weekly [] sample_db)).
  left. reflexivity.
Defined.

(** The audit log only grows, by at most one entry per request: a failed
    request and a read-only route append nothing, and every other successful
    request appends exactly one entry with the tag of its route, attributed
    to the username that the session holds after the request ("system" when
    it holds none, as after a logout). *)
Theorem audit_log_append_only (hash_password : string -> string) (now : clock)
    (r : request) (sess sess' : session) (db db' : database) (resp : response) :
  app hash_password now r sess db = (resp, sess', db') ->
  (success resp = false -> audit_log db' = audit_log db)
  /\ (success resp = true ->
      match audit_tag r with
      | None => audit_log db' = audit_log db
      | Some tag =>
          exists det,
            audit_log db'
            = audit_log db
              ++ [{| admin_username := match username sess' with
                                       | Some u => u
                                       | None => "system"
                                       end;
                     action := tag; details := det |}]
      end).
Proof.
  intros H.
  destruct r; simpl audit_tag; unfold_handlers_in H; handler_cases_in H;
    try match goal with
        | Hins : insert_member ?n ?a ?d = Some _ |- _ =>
            let Hspec := fresh "Hspec" in
            pose proof (insert_member_spec n a d) as Hspec;
            rewrite Hins in Hspec; destruct Hspec as (_ & _ & _ & ->)
        end;
    injection H as <- <- <-; simpl;
    (split; [try discriminate; intros _; reflexivity|]);
    try discriminate; intros _; try reflexivity;
    eexists; reflexivity.
Qed.

Lemma audit_log_append_only_witness :
  exists det,
    audit_log (snd (app sample_digest sample_clock Logout admin_session sample_db))
    = [{| admin_username := "system"; action := "LOGOUT"; details := det |}].
Proof.
  destruct (audit_log_append_only sample_digest sample_clock Logout admin_session
              session_clear sample_db
              (snd (app sample_digest sample_clock Logout admin_session sample_db))
              (jsonify_ok (PMessage "Logged out")) eq_refl) as [_ Hok].
  exact (Hok eq_refl).
Defined.

(** ** Invariants of the accounts and of the stat rows *)

Lemma app_keeps_admin_users (hash_password : string -> string) (now : clock)
    (r : request) (sess sess' : session) (db db' : database) (resp : response) :
  app hash_password now r sess db = (resp, sess', db') ->
  admin_users db' = admin_users db.
Proof.
  intros H. destruct r; step_cases H; reflexivity.
Qed.

(** No request creates, changes or removes an account: in every reachable
    state the only account is the default administrator created by
    [init_db], and the client's session is either empty or the session of
    that administrator. *)
Theorem reachable_accounts (hash_password : string -> string) (sess : session)
    (db : database) :
  reachable hash_password sess db ->
  admin_users db = [default_admin hash_password]
  /\ (sess = session_clear \/ sess = admin_session).
Proof.
  induction 1 as [|sess db now r resp sess' db' Hreach [IHa IHs] Hstep].
  - split; [reflexivity | left; reflexivity].
  - split.
    + rewrite (app_keeps_admin_users _ _ _ _ _ _ _ _ Hstep). exact IHa.
    + destruct r; step_cases Hstep; try exact IHs; try (left; reflexivity).
      right.
      match goal with
      | Hf : filter _ (admin_users db) = ?a :: _ |- _ =>
          assert (In a (admin_users db)) as Hin
            by (eapply proj1; apply filter_In; rewrite Hf; left; reflexivity)
      end.
      rewrite IHa in Hin. destruct Hin as [<- | []]. reflexivity.
Qed.

Lemma reachable_accounts_witness :
  admin_users (snd negative_state) = [default_admin sample_digest]
  /\ (fst negative_state = session_clear \/ fst negative_state = admin_session).
Proof.
  apply (reachable_accounts sample_digest).
  apply run_reachable, reach_init.
Defined.

Lemma upsert_stat_in (mid : Z) (s a b : option Z) (p : string) (rows : list stat_row)
    (r : stat_row) :
  In r (upsert_stat mid s a b p rows) -> In r rows \/ member_id r = mid.
Proof.
  induction rows as [|r0 rows IH]; simpl.
  - intros [<- | []]. right. reflexivity.
  - destruct (same_key mid p r0) eqn:E.
    + intros [<- | Hin]; [|left; right; exact Hin].
      right. simpl. apply same_key_spec in E. inversion E. reflexivity.
    + intros [<- | Hin]; [left; left; reflexivity|].
      destruct (IH Hin) as [H | H]; [left; right; exact H | right; exact H].
Qed.

Lemma no_orphans_upsert (mid : Z) (name : string) (db : database)
    (weekly monthly : list stat_row) :
  no_orphans db ->
  select_member_name mid (members db) = Some name ->
  (forall r, In r weekly -> In r (weekly_leaderboard db) \/ member_id r = mid) ->
  (forall r, In r monthly -> In r (monthly_leaderboard db) \/ member_id r = mid) ->
  forall r, In r weekly \/ In r monthly -> exists m, In m (members db) /\ m_id m = member_id r.
Proof.
  intros Hinv Hsel Hw Hm r Hr.
  apply select_member_name_in in Hsel. destruct Hsel as (m & Hin & Hid & _).
  destruct Hr as [Hr | Hr]; [apply Hw in Hr | apply Hm in Hr];
    (destruct Hr as [Hr | ->]; [apply Hinv; auto | exists m; split; assumption]).
Qed.

Lemma app_preserves_no_orphans (hash_password : string -> string) (now : clock)
    (r : request) (sess sess' : session) (db db' : database) (resp : response) :
  no_orphans db ->
  app hash_password now r sess db = (resp, sess', db') ->
  no_orphans db'.
Proof.
  intros Hinv H. destruct r; step_cases H; try exact Hinv.
  - (* add_member *)
    intros r Hr. simpl in Hr. destruct (Hinv r Hr) as (m & Hm & Hid).
    exists m. split; [|exact Hid]. simpl. apply in_or_app. left. exact Hm.
  - (* update_weekly_leaderboard *)
    intros r Hr. simpl in Hr |- *.
    eapply no_orphans_upsert; [exact Hinv | eassumption | | | exact Hr].
    + intros r0. apply upsert_stat_in.
    + intros r0 Hr0. left. exact Hr0.
  - (* update_monthly_leaderboard *)
    intros r Hr. simpl in Hr |- *.
    eapply no_orphans_upsert; [exact Hinv | eassumption | | | exact Hr].
    + intros r0 Hr0. left. exact Hr0.
    + intros r0. apply upsert_stat_in.
  - (* delete_member *)
    intros r Hr. simpl in Hr |- *. unfold delete_stats_of, delete_member_row in *.
    assert (Hr' : (In r (weekly_leaderboard db) \/ In r (monthly_leaderboard db))
                  /\ member_id r <> mid).
    { destruct Hr as [Hr | Hr]; apply filter_In in Hr; destruct Hr as [Hr Hne];
        apply negb_true_iff, Z.eqb_neq in Hne; tauto. }
    destruct Hr' as [Hr' Hne]. destruct (Hinv r Hr') as (m & Hm & Hid).
    exists m. split; [|exact Hid]. apply filter_In. split; [exact Hm|].
    apply negb_true_iff, Z.eqb_neq. congruence.
  - (* delete_weekly_entry *)
    intros r Hr. simpl in Hr |- *. apply Hinv.
    destruct Hr as [Hr | Hr]; [left | right; exact Hr].
    unfold delete_stat in Hr. apply filter_In in Hr. tauto.
  - (* delete_monthly_entry *)
    intros r Hr. simpl in Hr |- *. apply Hinv.
    destruct Hr as [Hr | Hr]; [left; exact Hr | right].
    unfold delete_stat in Hr. apply filter_In in Hr. tauto.
Qed.

(** The foreign key of the stat tables is not enforced by SQLite here, but
    the handlers keep it: in every reachable state each weekly and monthly
    stat row belongs to a stored member. *)
Theorem reachable_no_orphans (hash_password : string -> string) (sess : session)
    (db : database) :
  reachable hash_password sess db -> no_orphans db.
Proof.
  induction 1 as [|sess db now r resp sess' db' Hreach IH Hstep].
  - intros r [[] | []].
  - eapply app_preserves_no_orphans; eassumption.
Qed.

Lemma reachable_no_orphans_witness : no_orphans (snd negative_state).
Proof.
  apply (reachable_no_orphans sample_digest (fst negative_state)).
  apply run_reachable, reach_init.
Defined.

(** ** Sessions *)

(** A successful login opens the session of the matching account: the
    session then passes the [require_auth] gate in front of any handler, and
    [auth_status] reports it as authenticated with the account's username
    and role. *)
Theorem login_opens_session (hash_password : string -> string) (u p : field string)
    (sess sess' : session) (db db' : database) (resp : response) :
  login hash_password u p sess db = (resp, sess', db') ->
  success resp = true ->
  (exists a,
      In a (admin_users db)
      /\ get u = Some (au_username a)
      /\ au_password_hash a = hash_password (str_opt (get p))
      /\ sess' = {| user_id := Some (au_id a); username := Some (au_username a);
                    role := Some (au_role a) |}
      /\ auth_status sess' db'
         = (jsonify_ok (PStatus true (Some (Some (au_username a), Some (au_role a)))),
            sess', db'))
  /\ (forall f, require_auth f sess' db' = f sess' db').
Proof.
  intros H Hok. unfold login in H.
  destruct (not_str (get u) || not_str (get p)) eqn:Eguard;
    [injection H as <- <- <-; discriminate|].
  apply orb_false_iff in Eguard. destruct Eguard as [Eu _].
  apply not_str_false in Eu. destruct Eu as (usr & Hu & _).
  destruct (filter _ (admin_users db)) as [|a rest] eqn:Ef;
    [injection H as <- <- <-; discriminate|].
  injection H as <- <- <-.
  assert (Hin : In a (filter (fun x => (au_username x =? str_opt (get u))%string
                                && (au_password_hash x
                                    =? hash_password (str_opt (get p)))%string)
                        (admin_users db))) by (rewrite Ef; left; reflexivity).
  apply filter_In in Hin. destruct Hin as [Hin Hmatch].
  apply andb_true_iff in Hmatch. destruct Hmatch as [Hn Hh].
  apply String.eqb_eq in Hn. apply String.eqb_eq in Hh.
  split; [|intros f; reflexivity].
  exists a. split; [exact Hin|].
  split; [rewrite Hu in Hn |- *; simpl in Hn; congruence|].
  split; [exact Hh|]. split; reflexivity.
Qed.

Lemma login_opens_session_witness :
  require_auth (delete_member 2)
    (snd (fst (login sample_digest (Val "admin") (Val "synapse2024") session_clear
                 sample_db)))
    (snd (login sample_digest (Val "admin") (Val "synapse2024") session_clear sample_db))
  = delete_member 2
      (snd (fst (login sample_digest (Val "admin") (Val "synapse2024") session_clear
                   sample_db)))
      (snd (login sample_digest (Val "admin") (Val "synapse2024") session_clear
              sample_db)).
Proof.
  apply (login_opens_session sample_digest (Val "admin") (Val "synapse2024")
           session_clear _ sample_db _
           (fst (fst (login sample_digest (Val "admin") (Val "synapse2024")
                        session_clear sample_db)))); reflexivity.
Defined.

(** Logging out of an authenticated session empties the session and appends
    one LOGOUT entry.  Because the session is emptied before the entry is
    written, the entry is attributed to "system" and names the user only in
    its details.  Afterwards every protected route is refused and
    [auth_status] reports no authentication. *)
Theorem logout_closes_session (hash_password : string -> string) (now : clock)
    (r : request) (sess : session) (db : database) :
  has_user_id sess = true ->
  exists db',
    logout sess db = (jsonify_ok (PMessage "Logged out"), session_clear, db')
    /\ db' = set_audit_log
               (audit_log db ++
                  [{| admin_username := "system"; action := "LOGOUT";
                      details := "User " +++ str_opt (username sess) +++ " logged out" |}])
               db
    /\ (protected r = true ->
        app hash_password now r session_clear db' = (auth_required, session_clear, db'))
    /\ auth_status session_clear db'
       = (jsonify_ok (PStatus false None), session_clear, db').
Proof.
  intros Hauth. unfold logout, require_auth. rewrite Hauth. simpl.
  eexists. split; [reflexivity|]. split; [reflexivity|].
  split; [|reflexivity].
  destruct r; simpl; try discriminate; intros _; reflexivity.
Qed.

Lemma logout_closes_session_witness :
  exists db',
    logout admin_session sample_db
    = (jsonify_ok (PMessage "Logged out"), session_clear, db')
    /\ app sample_digest sample_clock (DeleteMember 1) session_clear db'
       = (auth_required, session_clear, db').
Proof.
  destruct (logout_closes_session sample_digest sample_clock (DeleteMember 1)
              admin_session sample_db eq_refl) as (db' & Hcall & _ & Hgate & _).
  exists db'. split; [exact Hcall | exact (Hgate eq_refl)].
Defined.


(** ** Upserts and the listings *)

Lemma listing_after_upsert (ms : list member) (rows : list stat_row) (p : string)
    (mid : Z) (s a b : option Z) :
  NoDup (map stat_key rows) ->
  (exists x, In x ms /\ m_id x = mid) ->
  (exists e, In e (leaderboard_data ms (upsert_stat mid s a b p rows) p)
             /\ shows_values mid s a b e)
  /\ (forall e, In e (leaderboard_data ms (upsert_stat mid s a b p rows) p) ->
                entry_id e = mid -> shows_values mid s a b e).
Proof.
  intros Hkeys (x & Hx & Hid).
  destruct (one_row_upsert mid s a b p rows Hkeys) as (Hin & Hone & _).
  split.
  - eexists. split.
    + apply (leaderboard_data_member _ _ _ x); [exact Hx|].
      rewrite Hid. apply upsert_stat_filter. exact Hkeys.
    + unfold shows_values, calculate_points. simpl. rewrite !or_zero_COALESCE.
      repeat split; try reflexivity. exact Hid.
  - intros e He Heid. apply leaderboard_data_shows in He.
    destruct He as (m & _ & Hm_id & _ & _ & Hrow & Htotal).
    assert (Hvals : sessionsAttended e = or_zero s /\ assessmentsSubmitted e = or_zero a
                    /\ bonusPoints e = or_zero b).
    { destruct Hrow as [(Hnone & _) | (r & Hr & Hrid & Hrp & Hs & Ha & Hb)].
      - exfalso. apply (Hnone _ Hin); [simpl; congruence | reflexivity].
      - assert (r = new_stat mid s a b p) as -> by (apply Hone; congruence).
        simpl in *. tauto. }
    destruct Hvals as (Hs & Ha & Hb).
    unfold shows_values. rewrite Htotal, Hs, Ha, Hb. unfold calculate_points.
    repeat split; try reflexivity. exact Heid.
Qed.

(** When an authenticated caller upserts the stats of an existing member
    with counters that SQLite can store, the call succeeds, and the listing
    of the same period then contains the member, every entry of the member
    showing exactly the values of the call (0 for an omitted or null
    counter) and the total 10 s + 20 a + b of them. *)
Theorem upsert_shows_in_listing (now : clock) (m : field id_value) (mid : Z)
    (s a b : field Z) (sess : session) (db : database) :
  has_user_id sess = true ->
  schema_ok db ->
  names_id m mid ->
  (exists x, In x (members db) /\ m_id x = mid) ->
  fits_counter s -> fits_counter a -> fits_counter b ->
  (exists db',
      update_weekly_leaderboard now m s a b sess db
      = (jsonify_ok (PMessage "Weekly leaderboard updated"), sess, db')
      /\ (exists e, In e (listing_of (get_weekly_leaderboard now) sess db')
                    /\ shows_values mid (sent s) (sent a) (sent b) e)
      /\ (forall e, In e (listing_of (get_weekly_leaderboard now) sess db') ->
                    entry_id e = mid -> shows_values mid (sent s) (sent a) (sent b) e))
  /\ (exists db',
         update_monthly_leaderboard now m s a b sess db
         = (jsonify_ok (PMessage "Monthly leaderboard updated"), sess, db')
         /\ (exists e, In e (listing_of (get_monthly_leaderboard now) sess db')
                       /\ shows_values mid (sent s) (sent a) (sent b) e)
         /\ (forall e, In e (listing_of (get_monthly_leaderboard now) sess db') ->
                       entry_id e = mid ->
                       shows_values mid (sent s) (sent a) (sent b) e)).
Proof.
  intros Hauth (_ & _ & Hweekly & Hmonthly) Hm Hx Hs Ha Hb.
  split.
  - destruct (update_weekly_leaderboard_ok now m mid s a b sess db Hauth Hm Hx Hs Ha Hb)
      as (name & ->).
    eexists. split; [reflexivity|]. unfold listing_of. simpl.
    apply listing_after_upsert; assumption.
  - destruct (update_monthly_leaderboard_ok now m mid s a b sess db Hauth Hm Hx Hs Ha Hb)
      as (name & ->).
    eexists. split; [reflexivity|]. unfold listing_of. simpl.
    apply listing_after_upsert; assumption.
Qed.

Lemma upsert_shows_in_listing_witness :
  exists db' e,
    update_weekly_leaderboard sample_clock (Val (IdInt 2)) (Val 4) Null Absent
      admin_session sample_db
    = (jsonify_ok (PMessage "Weekly leaderboard updated"), admin_session, db')
    /\ In e (listing_of (get_weekly_leaderboard sample_clock) admin_session db')
    /\ entry_id e = 2 /\ sessionsAttended e = 4 /\ assessmentsSubmitted e = 0
    /\ bonusPoints e = 0 /\ totalPoints e = 40.
Proof.
  destruct (upsert_shows_in_listing sample_clock (Val (IdInt 2)) 2 (Val 4) Null Absent
              admin_session sample_db eq_refl sample_db_schema_ok)
    as [(db' & Hcall & (e & Hin & Hshown) & _) _].
  - left. split; [reflexivity|]. split; [discriminate | unfold fits; simpl; lia].
  - exists bob. split; [right; left; reflexivity | reflexivity].
  - unfold fits_counter, fits. simpl. lia.
  - exact I.
  - exact I.
  - exists db', e. split; [exact Hcall|]. split; [exact Hin|]. exact Hshown.
Defined.

(** A weekly upsert, whatever its outcome, leaves the listing of every other
    week, the monthly table and the members as they were; a monthly upsert
    likewise leaves every other month, the weekly table and the members. *)
Theorem upsert_other_period_untouched (now : clock) (m : field id_value)
    (s a b : field Z) (sess : session) (db : database) (p' : string) :
  (p' <> get_week_start now ->
   let db' := snd (update_weekly_leaderboard now m s a b sess db) in
   leaderboard_data (members db') (weekly_leaderboard db') p'
   = leaderboard_data (members db) (weekly_leaderboard db) p'
   /\ monthly_leaderboard db' = monthly_leaderboard db
   /\ members db' = members db)
  /\ (p' <> get_month_year now ->
      let db' := snd (update_monthly_leaderboard now m s a b sess db) in
      leaderboard_data (members db') (monthly_leaderboard db') p'
      = leaderboard_data (members db) (monthly_leaderboard db) p'
      /\ weekly_leaderboard db' = weekly_leaderboard db
      /\ members db' = members db).
Proof.
  split; intros Hp db'; subst db'.
  - destruct (update_weekly_leaderboard now m s a b sess db) as [[resp sess'] db']
      eqn:H.
    unfold update_weekly_leaderboard, require_auth in H. handler_cases_in H;
      injection H as <- <- <-; simpl; try (repeat split; reflexivity).
    split; [|split; reflexivity].
    unfold leaderboard_data. f_equal. f_equal.
    apply left_join_ext. intros mid. apply upsert_stat_other.
    intros [= _ E]. exact (Hp E).
  - destruct (update_monthly_leaderboard now m s a b sess db) as [[resp sess'] db']
      eqn:H.
    unfold update_monthly_leaderboard, require_auth in H. handler_cases_in H;
      injection H as <- <- <-; simpl; try (repeat split; reflexivity).
    split; [|split; reflexivity].
    unfold leaderboard_data. f_equal. f_equal.
    apply left_join_ext. intros mid. apply upsert_stat_other.
    intros [= _ E]. exact (Hp E).
Qed.

Lemma upsert_other_period_untouched_witness :
  leaderboard_data
    (members (snd (update_weekly_leaderboard sample_clock (Val (IdInt 1)) (Val 0) (Val 0)
                     (Val 0) admin_session sample_db)))
    (weekly_leaderboard
       (snd (update_weekly_leaderboard sample_clock (Val (IdInt 1)) (Val 0) (Val 0)
               (Val 0) admin_session sample_db)))
    "2023-12-25"
  = leaderboard_data (members sample_db) (weekly_leaderboard sample_db) "2023-12-25".
Proof.
  apply (proj1 (upsert_other_period_untouched sample_clock (Val (IdInt 1)) (Val 0)
                  (Val 0) (Val 0) admin_session sample_db "2023-12-25")).
  discriminate.
Defined.

Lemma upsert_stat_idempotent (mid : Z) (s a b : option Z) (p : string)
    (rows : list stat_row) :
  upsert_stat mid s a b p (upsert_stat mid s a b p rows) = upsert_stat mid s a b p rows.
Proof.
  induction rows as [|r rows IH]; simpl.
  - unfold same_key. simpl. rewrite Z.eqb_refl, String.eqb_refl. reflexivity.
  - destruct (same_key mid p r) eqn:E; simpl.
    + pose proof E as E'. apply same_key_spec in E'. inversion E' as [[Em Ep]].
      unfold same_key at 1. simpl. rewrite Em, Ep, Z.eqb_refl, String.eqb_refl.
      reflexivity.
    + rewrite E, IH. reflexivity.
Qed.

(** Repeating a stat upsert with the same body in the same period gets the
    same answer and leaves both stat tables and the members exactly as the
    first call left them. *)
Theorem upsert_idempotent (now : clock) (m : field id_value) (s a b : field Z)
    (sess : session) (db : database) :
  (forall resp sess1 db1,
      update_weekly_leaderboard now m s a b sess db = (resp, sess1, db1) ->
      exists db2,
        update_weekly_leaderboard now m s a b sess1 db1 = (resp, sess1, db2)
        /\ weekly_leaderboard db2 = weekly_leaderboard db1
        /\ monthly_leaderboard db2 = monthly_leaderboard db1
        /\ members db2 = members db1)
  /\ (forall resp sess1 db1,
         update_monthly_leaderboard now m s a b sess db = (resp, sess1, db1) ->
         exists db2,
           update_monthly_leaderboard now m s a b sess1 db1 = (resp, sess1, db2)
           /\ weekly_leaderboard db2 = weekly_leaderboard db1
           /\ monthly_leaderboard db2 = monthly_leaderboard db1
           /\ members db2 = members db1).
Proof.
  split; intros resp sess1 db1 H.
  - unfold update_weekly_leaderboard, require_auth in *.
    destruct (negb (has_user_id sess)) eqn:Ea;
      [injection H as <- <- <-; rewrite Ea; eexists; repeat split; reflexivity|].
    destruct (not_id (get m)) eqn:Em;
      [injection H as <- <- <-; rewrite Ea; eexists; repeat split; reflexivity|].
    destruct (bind_id (get m)) as [| |key] eqn:Eb;
      try (injection H as <- <- <-; rewrite Ea; eexists; repeat split; reflexivity).
    destruct (select_member_name key (members db)) as [name|] eqn:Es;
      [|injection H as <- <- <-; rewrite Ea, Es; eexists; repeat split; reflexivity].
    destruct (bindable (get_default s 0) && bindable (get_default a 0)
              && bindable (get_default b 0)) eqn:Ec;
      injection H as <- <- <-; rewrite Ea; simpl; rewrite Es;
      eexists; (split; [reflexivity|]); simpl; repeat split; try reflexivity.
    apply upsert_stat_idempotent.
  - unfold update_monthly_leaderboard, require_auth in *.
    destruct (negb (has_user_id sess)) eqn:Ea;
      [injection H as <- <- <-; rewrite Ea; eexists; repeat split; reflexivity|].
    destruct (not_id (get m)) eqn:Em;
      [injection H as <- <- <-; rewrite Ea; eexists; repeat split; reflexivity|].
    destruct (bind_id (get m)) as [| |key] eqn:Eb;
      try (injection H as <- <- <-; rewrite Ea; eexists; repeat split; reflexivity).
    destruct (select_member_name key (members db)) as [name|] eqn:Es;
      [|injection H as <- <- <-; rewrite Ea, Es; eexists; repeat split; reflexivity].
    destruct (bindable (get_default s 0) && bindable (get_default a 0)
              && bindable (get_default b 0)) eqn:Ec;
      injection H as <- <- <-; rewrite Ea; simpl; rewrite Es;
      eexists; (split; [reflexivity|]); simpl; repeat split; try reflexivity.
    apply upsert_stat_idempotent.
Qed.

Lemma upsert_idempotent_witness :
  exists db2,
    update_weekly_leaderboard sample_clock (Val (IdInt 1)) (Val 3) (Val 1) (Val 5)
      (snd (fst alice_second_upsert)) (snd alice_second_upsert)
    = (fst (fst alice_second_upsert), snd (fst alice_second_upsert), db2)
    /\ weekly_leaderboard db2 = weekly_leaderboard (snd alice_second_upsert).
Proof.
  destruct (proj1 (upsert_idempotent sample_clock (Val (IdInt 1)) (Val 3) (Val 1) (Val 5)
                     (snd (fst alice_first_upsert)) (snd alice_first_upsert))
              (fst (fst alice_second_upsert)) (snd (fst alice_second_upsert))
              (snd alice_second_upsert) eq_refl) as (db2 & Hcall & Hweekly & _).
  exists db2. split; [exact Hcall | exact Hweekly].
Defined.

(** ** Deleting a stat entry *)

Lemma filter_delete_stat (mid : Z) (p : string) (rows : list stat_row) :
  filter (same_key mid p) (delete_stat mid p rows) = [].
Proof.
  apply filter_nil_iff. intros r Hr. unfold delete_stat in Hr.
  apply filter_In in Hr. destruct Hr as [_ Hr]. apply negb_true_iff in Hr. exact Hr.
Qed.


Lemma listing_without_row (ms : list member) (rows : list stat_row) (p : string)
    (mid : Z) (e : entry) :
  filter (same_key mid p) rows = [] ->
  In e (leaderboard_data ms rows p) ->
  entry_id e = mid ->
  zero_entry e.
Proof.
  intros Hnone He Hid.
  apply leaderboard_data_in in He. destruct He as (m & w & Hin & ->).
  simpl in Hid. apply left_join_in in Hin.
  destruct Hin as [_ [[-> _] | (r & -> & Hr & Hk)]].
  - repeat split; reflexivity.
  - exfalso. rewrite Hid in Hk. apply same_key_spec in Hk.
    rewrite filter_nil_iff in Hnone. rewrite (Hnone r Hr) in Hk. discriminate.
Qed.

Lemma leaderboard_data_has_member (ms : list member) (rows : list stat_row) (p : string)
    (m : member) :
  In m ms ->
  exists e, In e (leaderboard_data ms rows p)
            /\ entry_id e = m_id m /\ entry_name e = m_name m.
Proof.
  intros Hm.
  assert (exists w, In (m, w) (left_join ms rows p)) as (w & Hin).
  { unfold left_join.
    destruct (filter (same_key (m_id m) p) rows) as [|w0 ws] eqn:E.
    - exists None. apply in_flat_map. exists m. split; [exact Hm|].
      rewrite E. left. reflexivity.
    - exists (Some w0). apply in_flat_map. exists m. split; [exact Hm|].
      rewrite E. left. reflexivity. }
  exists (with_total_points (m, w)). split; [|split; reflexivity].
  unfold leaderboard_data. apply in_map.
  apply (Permutation_in _ (Permutation_sym (order_by_desc_perm order_key _))).
  exact Hin.
Qed.

Lemma delete_entry_outcome_cases (table : database -> list stat_row) (p : string)
    (mid : Z) (sess : session) (db : database)
    (ok : response * session * database)
    (again : database -> response * session * database) :
  success (fst (fst ok)) = true ->
  snd (fst ok) = sess ->
  table (snd ok) = delete_stat mid p (table db) ->
  members (snd ok) = members db ->
  (fits mid ->
   again (snd ok) = (jsonify_error "Entry not found" None 404, sess, snd ok)) ->
  delete_entry_outcome table p mid sess db
    (if negb (in_int64 mid) then (internal_server_error, sess, db)
     else match filter (same_key mid p) (table db) with
          | [] => (jsonify_error "Entry not found" None 404, sess, db)
          | _ :: _ => ok
          end)
    again.
Proof.
  intros Hsuccess Hsess Htable Hmembers Hagain. unfold delete_entry_outcome.
  split.
  { intros Hbig. destruct (in_int64 mid) eqn:E; [|reflexivity].
    apply in_int64_fits in E. contradiction. }
  split.
  - intros Hfit Hnone. rewrite (proj2 (in_int64_fits mid) Hfit). simpl.
    assert (filter (same_key mid p) (table db) = []) as ->; [|reflexivity].
    apply filter_nil_iff. intros r Hr.
    destruct (same_key mid p r) eqn:E; [|reflexivity].
    apply same_key_spec in E. inversion E as [[Hid Hp]].
    exfalso. exact (Hnone r Hr Hid Hp).
  - intros Hfit (r0 & Hr0 & Hid0 & Hp0). rewrite (proj2 (in_int64_fits mid) Hfit). simpl.
    destruct (filter (same_key mid p) (table db)) as [|x rest] eqn:E.
    { rewrite filter_nil_iff in E. specialize (E r0 Hr0).
      assert (same_key mid p r0 = true) as E'
        by (apply same_key_spec; unfold stat_key; rewrite Hid0, Hp0; reflexivity).
      congruence. }
    split; [exact Hsuccess|]. split; [exact Hsess|].
    rewrite Htable, Hmembers.
    split.
    { intros r. unfold delete_stat. rewrite filter_In, negb_true_iff.
      split.
      - intros [Hr Hk]. split; [exact Hr|]. intros [Hid Hp].
        assert (same_key mid p r = true) as E'
          by (apply same_key_spec; unfold stat_key; rewrite Hid, Hp; reflexivity).
        congruence.
      - intros [Hr Hk]. split; [exact Hr|].
        destruct (same_key mid p r) eqn:E'; [|reflexivity].
        apply same_key_spec in E'. unfold stat_key in E'. injection E' as Hid Hp.
        exfalso. apply Hk. split; assumption. }
    split; [reflexivity|].
    split.
    { intros m Hm Hid.
      destruct (leaderboard_data_has_member (members db)
                  (delete_stat mid p (table db)) p m Hm) as (e & He & Heid & Hname).
      exists e. split; [exact He|]. split; [congruence|]. split; [exact Hname|].
      eapply listing_without_row; [apply filter_delete_stat | exact He | congruence]. }
    split.
    { intros e. apply listing_without_row, filter_delete_stat. }
    apply Hagain. exact Hfit.
Qed.

(** For an authenticated caller and a member id that fits 64-bit integers,
    deleting the weekly (resp. monthly) entry of a member answers 404
    "Entry not found" and changes nothing when the member has no row for
    the current period.  Otherwise it removes the rows of that key and no
    other and keeps the member, who is then present in the listing of the
    period with zero counters and a zero total, and the same request
    repeated gets the 404.  An id beyond 64 bits is answered with 500 and
    changes nothing. *)
Theorem delete_entry_spec (now : clock) (mid : Z) (sess : session) (db : database) :
  has_user_id sess = true ->
  delete_entry_outcome weekly_leaderboard (get_week_start now) mid sess db
    (delete_weekly_entry now mid sess db) (delete_weekly_entry now mid sess)
  /\ delete_entry_outcome monthly_leaderboard (get_month_year now) mid sess db
       (delete_monthly_entry now mid sess db) (delete_monthly_entry now mid sess).
Proof.
  intros Hauth. split.
  - unfold delete_weekly_entry at 1. unfold require_auth. rewrite Hauth. simpl.
    apply (delete_entry_outcome_cases weekly_leaderboard); try reflexivity.
    intros Hfit. unfold delete_weekly_entry, require_auth. rewrite Hauth. simpl.
    rewrite (proj2 (in_int64_fits mid) Hfit), filter_delete_stat. reflexivity.
  - unfold delete_monthly_entry at 1. unfold require_auth. rewrite Hauth. simpl.
    apply (delete_entry_outcome_cases monthly_leaderboard); try reflexivity.
    intros Hfit. unfold delete_monthly_entry, require_auth. rewrite Hauth. simpl.
    rewrite (proj2 (in_int64_fits mid) Hfit), filter_delete_stat. reflexivity.
Qed.

Lemma delete_entry_spec_witness :
  (exists e,
      In e (leaderboard_data
              (members (snd (delete_weekly_entry sample_clock 1 admin_session sample_db)))
              (weekly_leaderboard
                 (snd (delete_weekly_entry sample_clock 1 admin_session sample_db)))
              "2024-01-01")
      /\ entry_id e = 1 /\ entry_name e = "Alice" /\ zero_entry e)
  /\ delete_monthly_entry sample_clock 2 admin_session sample_db
     = (jsonify_error "Entry not found" None 404, admin_session, sample_db).
Proof.
  destruct (delete_entry_spec sample_clock 1 admin_session sample_db eq_refl)
    as [(_ & _ & Hweekly) _].
  destruct (delete_entry_spec sample_clock 2 admin_session sample_db eq_refl)
    as [_ (_ & Hmonthly & _)].
  split.
  - destruct Hweekly as (_ & _ & _ & _ & Hlisted & _).
    + unfold fits. simpl. lia.
    + eexists. split; [right; left; reflexivity|]. split; reflexivity.
    + apply (Hlisted alice); [left; reflexivity | reflexivity].
  - apply Hmonthly; [unfold fits; simpl; lia|].
    intros r [<- | []]. discriminate.
Defined.

(** ** Member ids *)

(** A successful [add_member] stores exactly one new member, with the name
    of the call and the avatar of the call (the default URL only when the
    key is missing, NULL for an explicit null), under an id that is larger
    than the id of every stored member and than every id handed out before;
    the stat tables are not touched. *)
Theorem add_member_fresh_id (n a : field string) (sess sess' : session)
    (db db' : database) (resp : response) :
  add_member n a sess db = (resp, sess', db') ->
  success resp = true ->
  exists name rowid,
    n = Val name /\ name <> ""
    /\ resp = jsonify_ok (PMember rowid name (get_default a (default_avatar name)))
    /\ members db'
       = members db
         ++ [{| m_id := rowid; m_name := name;
                m_avatar := get_default a (default_avatar name) |}]
    /\ (forall m, In m (members db) -> m_id m < rowid /\ m_name m <> name)
    /\ seq_members db < rowid
    /\ seq_members db' = rowid
    /\ weekly_leaderboard db' = weekly_leaderboard db
    /\ monthly_leaderboard db' = monthly_leaderboard db.
Proof.
  intros H Hok. unfold add_member, require_auth in H.
  destruct (negb (has_user_id sess)); [injection H as <- <- <-; discriminate|].
  destruct (not_str (get n)) eqn:En; [injection H as <- <- <-; discriminate|].
  apply not_str_false in En. destruct En as (name & Hn & Hne).
  destruct n as [| |name0]; try discriminate. injection Hn as ->.
  simpl in H.
  pose proof (insert_member_spec name (get_default a (default_avatar name)) db) as Hspec.
  destruct (insert_member name (get_default a (default_avatar name)) db)
    as [[db1 rowid]|]; [|injection H as <- <- <-; discriminate].
  destruct Hspec as (Hfresh & _ & Hseq & ->). injection H as <- <- <-.
  exists name, rowid. simpl.
  repeat (split; [reflexivity || assumption|]).
  split; [|repeat split; try reflexivity; assumption].
  intros m Hm. destruct (Hfresh m Hm). split; assumption.
Qed.

Lemma add_member_fresh_id_witness :
  exists name rowid,
    fst (fst (add_member (Val "Carol") Null admin_session sample_db))
    = jsonify_ok (PMember rowid name None)
    /\ 2 < rowid.
Proof.
  destruct (add_member_fresh_id (Val "Carol") Null admin_session
              (snd (fst (add_member (Val "Carol") Null admin_session sample_db)))
              sample_db
              (snd (add_member (Val "Carol") Null admin_session sample_db))
              (fst (fst (add_member (Val "Carol") Null admin_session sample_db)))
              eq_refl eq_refl)
    as (name & rowid & _ & _ & Hresp & _ & _ & Hseq & _).
  exists name, rowid. split; [exact Hresp | exact Hseq].
Defined.


Lemma no_rows_of_new_member (db : database) (rowid : Z) (p : string)
    (rows : list stat_row) :
  no_orphans db ->
  (forall m, In m (members db) -> m_id m < rowid) ->
  (forall r, In r rows -> In r (weekly_leaderboard db) \/ In r (monthly_leaderboard db)) ->
  filter (same_key rowid p) rows = [].
Proof.
  intros Hinv Hfresh Hrows. apply filter_nil_iff. intros r Hr.
  destruct (same_key rowid p r) eqn:E; [|reflexivity].
  apply same_key_spec in E. inversion E as [[Em Ep]].
  destruct (Hinv r (Hrows r Hr)) as (m & Hm & Hid).
  specialize (Hfresh m Hm). lia.
Qed.

(** When every stat row belongs to a stored member, as in all reachable
    states, a newly added member starts from nothing: both listings show the
    new id with zero counters and a zero total, whatever the period. *)

(** When every stat row belongs to a stored member, as in all reachable
    states, a newly added member starts from nothing: the weekly and the
    monthly listing of any period contain the new member, and every entry
    with the new id shows zero counters and a zero total. *)
Theorem new_member_starts_at_zero (n a : field string) (sess sess' : session)
    (db db' : database) (rowid : Z) (name : string) (avatar : option string) :
  no_orphans db ->
  add_member n a sess db = (jsonify_ok (PMember rowid name avatar), sess', db') ->
  forall now sess0,
    (exists e, In e (listing_of (get_weekly_leaderboard now) sess0 db')
               /\ entry_id e = rowid /\ entry_name e = name /\ zero_entry e)
    /\ (exists e, In e (listing_of (get_monthly_leaderboard now) sess0 db')
                  /\ entry_id e = rowid /\ entry_name e = name /\ zero_entry e)
    /\ (forall e,
          In e (listing_of (get_weekly_leaderboard now) sess0 db')
          \/ In e (listing_of (get_monthly_leaderboard now) sess0 db') ->
          entry_id e = rowid -> zero_entry e).
Proof.
  intros Hinv H now sess0.
  unfold add_member, require_auth in H.
  destruct (negb (has_user_id sess)); [discriminate|].
  destruct (not_str (get n)); [discriminate|].
  pose proof (insert_member_spec (str_opt (get n))
                (get_default a (default_avatar (str_opt (get n)))) db) as Hspec.
  destruct (insert_member _ _ db) as [[db1 rowid1]|]; [|discriminate].
  destruct Hspec as (Hfresh & _ & _ & ->). injection H as <- <- <- _ <-.
  assert (Hlt : forall m, In m (members db) -> m_id m < rowid1)
    by (intros m Hm; apply Hfresh; exact Hm).
  assert (Hzero : forall e,
             In e (listing_of (get_weekly_leaderboard now) sess0
                     (log_action sess "ADD_MEMBER"
                        ("Added member: " +++ str_opt (get n) +++ " (ID: "
                           +++ str_int rowid1 +++ ")")
                        (set_members
                           (members db ++
                              [{| m_id := rowid1; m_name := str_opt (get n);
                                  m_avatar := get_default a
                                                (default_avatar (str_opt (get n))) |}])
                           rowid1 db)))
             \/ In e (listing_of (get_monthly_leaderboard now) sess0
                        (log_action sess "ADD_MEMBER"
                           ("Added member: " +++ str_opt (get n) +++ " (ID: "
                              +++ str_int rowid1 +++ ")")
                           (set_members
                              (members db ++
                                 [{| m_id := rowid1; m_name := str_opt (get n);
                                     m_avatar := get_default a
                                                   (default_avatar (str_opt (get n))) |}])
                              rowid1 db))) ->
             entry_id e = rowid1 -> zero_entry e).
  { intros e He Hid. unfold listing_of in He. simpl in He.
    destruct He as [He | He];
      (eapply listing_without_row; [|exact He|exact Hid]);
      apply (no_rows_of_new_member db); auto. }
  unfold listing_of in *. simpl in *.
  split; [|split; [|exact Hzero]].
  - match goal with
    | |- exists e, In e (leaderboard_data ?ms ?rows ?p) /\ _ =>
        destruct (leaderboard_data_has_member ms rows p
                    {| m_id := rowid1; m_name := str_opt (get n);
                       m_avatar := get_default a (default_avatar (str_opt (get n))) |})
          as (e & He & Hid & Hname);
          [apply in_or_app; right; left; reflexivity|]
    end.
    exists e. split; [exact He|]. split; [exact Hid|]. split; [exact Hname|].
    apply Hzero; [left; exact He | exact Hid].
  - match goal with
    | |- exists e, In e (leaderboard_data ?ms ?rows ?p) /\ _ =>
        destruct (leaderboard_data_has_member ms rows p
                    {| m_id := rowid1; m_name := str_opt (get n);
                       m_avatar := get_default a (default_avatar (str_opt (get n))) |})
          as (e & He & Hid & Hname);
          [apply in_or_app; right; left; reflexivity|]
    end.
    exists e. split; [exact He|]. split; [exact Hid|]. split; [exact Hname|].
    apply Hzero; [right; exact He | exact Hid].
Qed.

Lemma new_member_starts_at_zero_witness :
  no_orphans sample_db
  /\ exists e,
      In e (listing_of (get_weekly_leaderboard sample_clock) session_clear
              (snd (add_member (Val "Carol") Absent admin_session sample_db)))
      /\ entry_id e = 3 /\ entry_name e = "Carol" /\ zero_entry e.
Proof.
  assert (Hinv : no_orphans sample_db).
  { intros r [[<- | [<- | [<- | []]]] | [<- | []]];
      solve [exists alice; split; [left; reflexivity | reflexivity]
            | exists bob; split; [right; left; reflexivity | reflexivity]]. }
  split; [exact Hinv|].
  exact (proj1 (new_member_starts_at_zero (Val "Carol") Absent admin_session
                  admin_session sample_db
                  (snd (add_member (Val "Carol") Absent admin_session sample_db))
                  3 "Carol" (Some (default_avatar "Carol")) Hinv eq_refl
                  sample_clock session_clear)).
Defined.

Lemma app_seq_members_monotone (hash_password : string -> string) (now : clock)
    (r : request) (sess sess' : session) (db db' : database) (resp : response) :
  app hash_password now r sess db = (resp, sess', db') ->
  seq_members db <= seq_members db'.
Proof.
  intros H. destruct r; step_cases H; simpl; lia.
Qed.

Lemma run_seq_members_monotone (hash_password : string -> string)
    (trace : list (clock * request)) (sess : session) (db : database) :
  app_inv db ->
  app_inv (snd (run hash_password trace sess db))
  /\ seq_members db <= seq_members (snd (run hash_password trace sess db)).
Proof.
  revert sess db.
  induction trace as [|[now r] trace IH]; intros sess db Hinv; simpl; [split; [exact Hinv | lia]|].
  destruct (app hash_password now r sess db) as [[resp sess'] db'] eqn:Hstep.
  pose proof (app_preserves_inv hash_password now r sess db Hinv) as Hinv'.
  rewrite Hstep in Hinv'. simpl in Hinv'.
  pose proof (app_seq_members_monotone _ _ _ _ _ _ _ _ Hstep) as Hseq.
  destruct (IH sess' db' Hinv') as [Hfinal Hle].
  split; [exact Hfinal | lia].
Qed.

(** Member ids are never handed out twice: whatever requests follow,
    including the deletion of the member, a later [add_member] returns an
    id that is larger than the id of every member that was ever stored. *)
Theorem member_ids_never_reused (hash_password : string -> string)
    (trace : list (clock * request)) (sess sess2 : session) (db db2 : database)
    (m : member) (n a : field string) (rowid : Z) (name : string)
    (avatar : option string) :
  app_inv db ->
  In m (members db) ->
  add_member n a (fst (run hash_password trace sess db))
    (snd (run hash_password trace sess db))
  = (jsonify_ok (PMember rowid name avatar), sess2, db2) ->
  m_id m < rowid.
Proof.
  intros Hinv Hm H.
  destruct (run_seq_members_monotone hash_password trace sess db Hinv) as [_ Hle].
  destruct Hinv as [_ Hbound]. rewrite Forall_forall in Hbound.
  destruct (Hbound m Hm) as [[_ Hseq] _].
  unfold add_member, require_auth in H.
  destruct (negb (has_user_id _)); [discriminate|].
  destruct (not_str (get n)); [discriminate|].
  pose proof (insert_member_spec (str_opt (get n))
                (get_default a (default_avatar (str_opt (get n))))
                (snd (run hash_password trace sess db))) as Hspec.
  destruct (insert_member _ _ _) as [[db1 rowid1]|]; [|discriminate].
  destruct Hspec as (_ & _ & Hnew & _). injection H as <- _ _ _ _. lia.
Qed.

Lemma member_ids_never_reused_witness :
  app_inv sample_db
  /\ exists avatar db2,
      add_member (Val "Bob Ray") Null
        (fst (run sample_digest [(sample_clock, DeleteMember 2)] admin_session sample_db))
        (snd (run sample_digest [(sample_clock, DeleteMember 2)] admin_session sample_db))
      = (jsonify_ok (PMember 3 "Bob Ray" avatar), admin_session, db2)
      /\ m_id bob < 3.
Proof.
  split; [exact sample_db_inv|].
  eexists. eexists. split; [reflexivity|].
  eapply (member_ids_never_reused sample_digest [(sample_clock, DeleteMember 2)]
            admin_session _ sample_db _ bob (Val "Bob Ray") Null 3 "Bob Ray" _
            sample_db_inv).
  - right. left. reflexivity.
  - reflexivity.
Defined.


(** ** Start-up *)

(** [init_db] adds the default administrator and nothing else.  On a
    database that already has an account named "admin" it changes nothing,
    so running it again at the next start is harmless.  Otherwise it appends
    exactly one account, named "admin", with the digest of the default
    password and the role "admin", under a new id.  It never touches the
    members, the stat tables or the audit log. *)
Theorem init_db_idempotent (hash_password : string -> string) (db : database) :
  init_db hash_password (init_db hash_password db) = init_db hash_password db
  /\ ((exists u, In u (admin_users db) /\ au_username u = "admin") ->
      init_db hash_password db = db)
  /\ ((forall u, In u (admin_users db) -> au_username u <> "admin") ->
      exists rowid,
        (forall u, In u (admin_users db) -> au_id u < rowid)
        /\ seq_admin_users db < rowid
        /\ admin_users (init_db hash_password db)
           = admin_users db
             ++ [{| au_id := rowid; au_username := "admin";
                    au_password_hash := hash_password "synapse2024";
                    au_role := "admin" |}]
        /\ seq_admin_users (init_db hash_password db) = rowid)
  /\ members (init_db hash_password db) = members db
  /\ weekly_leaderboard (init_db hash_password db) = weekly_leaderboard db
  /\ monthly_leaderboard (init_db hash_password db) = monthly_leaderboard db
  /\ audit_log (init_db hash_password db) = audit_log db
  /\ seq_members (init_db hash_password db) = seq_members db.
Proof.
  assert (Hkeep : forall d, (exists u, In u (admin_users d) /\ au_username u = "admin") ->
                            init_db hash_password d = d).
  { intros d (u & Hin & Hname). unfold init_db.
    destruct (filter (fun x => (au_username x =? "admin")%string) (admin_users d))
      as [|x rest] eqn:E; [|reflexivity].
    rewrite filter_nil_iff in E. specialize (E u Hin).
    rewrite Hname in E. discriminate. }
  assert (Hhas : exists u, In u (admin_users (init_db hash_password db))
                           /\ au_username u = "admin").
  { unfold init_db.
    destruct (filter (fun x => (au_username x =? "admin")%string) (admin_users db))
      as [|x rest] eqn:E; simpl.
    - eexists. split; [apply in_or_app; right; left; reflexivity | reflexivity].
    - assert (In x (filter (fun x => (au_username x =? "admin")%string) (admin_users db)))
        as Hx by (rewrite E; left; reflexivity).
      apply filter_In in Hx. destruct Hx as [Hx Hn]. apply String.eqb_eq in Hn.
      exists x. split; assumption. }
  split; [apply Hkeep; exact Hhas|].
  split; [apply Hkeep|].
  split.
  { intros Hnone. unfold init_db.
    assert (filter (fun x => (au_username x =? "admin")%string) (admin_users db) = [])
      as ->.
    { apply filter_nil_iff. intros u Hu. apply String.eqb_neq. exact (Hnone u Hu). }
    simpl. eexists. split; [|split; [|split; reflexivity]].
    - apply autoincrement_fresh.
    - apply autoincrement_fresh. }
  unfold init_db.
  destruct (filter (fun x => (au_username x =? "admin")%string) (admin_users db));
    simpl; repeat split; reflexivity.
Qed.

Lemma init_db_idempotent_witness :
  init_db sample_digest sample_db = sample_db
  /\ exists rowid,
      admin_users (init_db sample_digest empty_db)
      = [{| au_id := rowid; au_username := "admin";
            au_password_hash := sample_digest "synapse2024"; au_role := "admin" |}].
Proof.
  split.
  - apply (init_db_idempotent sample_digest sample_db).
    eexists. split; [left; reflexivity | reflexivity].
  - destruct (init_db_idempotent sample_digest empty_db) as (_ & _ & Hadd & _).
    destruct Hadd as (rowid & _ & _ & Husers & _); [intros u []|].
    exists rowid. exact Husers.
Defined.

(** On a database without an account named "admin", the account that
    [init_db] creates can log in with the default password: the login
    succeeds with username "admin" and role "admin" and opens a session. *)
Theorem default_admin_can_login (hash_password : string -> string) (sess : session)
    (db : database) :
  (forall u, In u (admin_users db) -> au_username u <> "admin") ->
  exists rowid db',
    login hash_password (Val "admin") (Val "synapse2024") sess (init_db hash_password db)
    = (jsonify_ok (PUser "admin" "admin"),
       {| user_id := Some rowid; username := Some "admin"; role := Some "admin" |}, db')
    /\ (forall u, In u (admin_users db) -> au_id u < rowid).
Proof.
  intros Hnone.
  assert (Hf : forall f, filter (fun u => (au_username u =? "admin")%string && f u)
                           (admin_users db) = []).
  { intros f. apply filter_nil_iff. intros u Hu.
    apply Hnone in Hu. apply String.eqb_neq in Hu. rewrite Hu. reflexivity. }
  unfold init_db.
  assert (filter (fun u => (au_username u =? "admin")%string) (admin_users db) = []) as ->.
  { apply filter_nil_iff. intros u Hu. apply Hnone in Hu.
    apply String.eqb_neq. exact Hu. }
  unfold login. simpl. rewrite filter_app, Hf. simpl.
  rewrite String.eqb_refl. simpl.
  eexists. eexists. split; [reflexivity|].
  apply autoincrement_fresh.
Qed.

Lemma default_admin_can_login_witness :
  exists rowid db',
    login sample_digest (Val "admin") (Val "synapse2024") session_clear
      (init_db sample_digest empty_db)
    = (jsonify_ok (PUser "admin" "admin"),
       {| user_id := Some rowid; username := Some "admin"; role := Some "admin" |}, db').
Proof.
  destruct (default_admin_can_login sample_digest session_clear empty_db)
    as (rowid & db' & Hcall & _).
  - intros u [].
  - exists rowid, db'. exact Hcall.
Defined.


(** ** After a member is deleted *)

(** In a store whose member ids are positive, as in all reachable states,
    once [delete_member] has succeeded the id is unknown to every other
    admin route: deleting it again and upserting stats for it answer 404
    "Member not found", and deleting its weekly or monthly entry answers 404
    "Entry not found"; none of them changes anything. *)
Theorem deleted_member_is_gone (now : clock) (mid : Z) (s a b : field Z)
    (sess sess' : session) (db db' : database) (resp : response) :
  app_inv db ->
  delete_member mid sess db = (resp, sess', db') ->
  success resp = true ->
  delete_member mid sess' db' = (jsonify_error "Member not found" None 404, sess', db')
  /\ update_weekly_leaderboard now (Val (IdInt mid)) s a b sess' db'
     = (jsonify_error "Member not found" None 404, sess', db')
  /\ update_monthly_leaderboard now (Val (IdInt mid)) s a b sess' db'
     = (jsonify_error "Member not found" None 404, sess', db')
  /\ delete_weekly_entry now mid sess' db'
     = (jsonify_error "Entry not found" None 404, sess', db')
  /\ delete_monthly_entry now mid sess' db'
     = (jsonify_error "Entry not found" None 404, sess', db').
Proof.
  intros Hinv H Hok. unfold delete_member, require_auth in H.
  destruct (negb (has_user_id sess)) eqn:Ea; [injection H as <- <- <-; discriminate|].
  destruct (negb (in_int64 mid)) eqn:Ei; [injection H as <- <- <-; discriminate|].
  destruct (select_member_name mid (members db)) as [name|] eqn:Es;
    [|injection H as <- <- <-; discriminate].
  injection H as <- <- <-.
  apply select_member_name_in in Es. destruct Es as (m & Hm & Hid & _).
  assert (Hgone : select_member_name mid (delete_member_row mid (members db)) = None).
  { apply select_member_name_none. intros x Hx. unfold delete_member_row in Hx.
    apply filter_In in Hx. destruct Hx as [_ Hx].
    apply negb_true_iff, Z.eqb_neq in Hx. exact Hx. }
  assert (Hrows : forall p rows, filter (same_key mid p) (delete_stats_of mid rows) = []).
  { intros p rows. apply filter_nil_iff. intros r Hr. unfold delete_stats_of in Hr.
    apply filter_In in Hr. destruct Hr as [_ Hr]. apply negb_true_iff in Hr.
    unfold same_key. rewrite Hr. reflexivity. }
  assert (Hnz : (mid =? 0) = false).
  { apply Z.eqb_neq. destruct Hinv as [_ Hpos]. rewrite Forall_forall in Hpos.
    destruct (Hpos m Hm) as [[H0 _] _]. lia. }
  assert (Hfit : in_int64 mid = true) by (apply negb_false_iff; exact Ei).
  assert (Hauth : negb (has_user_id sess) = false) by exact Ea.
  unfold delete_member, update_weekly_leaderboard, update_monthly_leaderboard,
    delete_weekly_entry, delete_monthly_entry, require_auth.
  rewrite Hauth, Ei. simpl. rewrite Hnz, Hfit, Hgone, !Hrows.
  repeat split; reflexivity.
Qed.

Lemma deleted_member_is_gone_witness :
  app_inv sample_db
  /\ update_weekly_leaderboard sample_clock (Val (IdInt 2)) (Val 1) (Val 1) (Val 1)
       admin_session (snd (delete_member 2 admin_session sample_db))
     = (jsonify_error "Member not found" None 404, admin_session,
        snd (delete_member 2 admin_session sample_db)).
Proof.
  split; [exact sample_db_inv|].
  apply (deleted_member_is_gone sample_clock 2 (Val 1) (Val 1) (Val 1)
           admin_session admin_session sample_db
           (snd (delete_member 2 admin_session sample_db))
           (fst (fst (delete_member 2 admin_session sample_db)))
           sample_db_inv eq_refl eq_refl).
Defined.

(** ** The default avatar *)

Lemma list_ascii_of_string_append (s1 s2 : string) :
  list_ascii_of_string (s1 +++ s2) = list_ascii_of_string s1 ++ list_ascii_of_string s2.
Proof.
  induction s1 as [|c s1 IH]; simpl; [reflexivity|]. rewrite IH. reflexivity.
Qed.

(** The default avatar URL never contains a space, whatever the name, and a
    name without spaces is embedded in it unchanged. *)
Theorem default_avatar_no_space (name : string) :
  ~ In " "%char (list_ascii_of_string (default_avatar name))
  /\ (~ In " "%char (list_ascii_of_string name) ->
      default_avatar name
      = "https://ui-avatars.com/api/?name=" +++ name
          +++ "&background=ff642c&color=fff&size=200").
Proof.
  split.
  - unfold default_avatar. rewrite !list_ascii_of_string_append.
    intros Hin. apply in_app_or in Hin. destruct Hin as [Hin | Hin].
    + simpl in Hin. repeat (destruct Hin as [Hin | Hin]; [discriminate|]). exact Hin.
    + apply in_app_or in Hin. destruct Hin as [Hin | Hin].
      * clear -Hin. induction name as [|c name IH]; simpl in Hin; [exact Hin|].
        destruct Hin as [Hc | Hin]; [|exact (IH Hin)].
        destruct (Ascii.eqb c " ") eqn:E; [discriminate|].
        apply Ascii.eqb_neq in E. exact (E Hc).
      * simpl in Hin. repeat (destruct Hin as [Hin | Hin]; [discriminate|]). exact Hin.
  - intros Hnone. unfold default_avatar. f_equal. f_equal.
    induction name as [|c name IH]; simpl; [reflexivity|].
    simpl in Hnone.
    destruct (Ascii.eqb c " ") eqn:E.
    + apply Ascii.eqb_eq in E. exfalso. apply Hnone. left. exact E.
    + rewrite IH; [reflexivity|]. intros Hin. apply Hnone. right. exact Hin.
Qed.

Lemma default_avatar_no_space_witness :
  default_avatar "Alice"
  = "https://ui-avatars.com/api/?name=Alice&background=ff642c&color=fff&size=200".
Proof.
  apply (proj2 (default_avatar_no_space "Alice")).
  simpl. intros Hin.
  repeat (destruct Hin as [Hin | Hin]; [discriminate|]). exact Hin.
Defined.
